(** * Optical throughput models of the exposure-time calculator

    A shallow embedding of [etc/models.py]: the [Site], [Telescope] and
    [Instrument] classes, their constructors, the filter resolution of
    [Instrument.set_bandpass_from_filter], [Instrument.throughput] and the
    arithmetic operators of the three classes.

    Conventions.
    - Python floats are idealised as exact rationals ([Qc], canonical
      rationals, so that equality is Leibniz equality): neither rounding
      nor the finite range of doubles is modelled.
    - Python strings are [string]s; every token of the filter catalogue is
      plain ASCII, one [ascii] per character.
    - The spectra themselves ([BaseUnitlessSpectrum], [SpectralElement],
      [Empirical1D]) belong to the synphot library.  They enter as an
      interface ([SpectrumOps]) whose few algebraic laws ([SpectrumLaws])
      are stated explicitly where a result depends on them.
    - File readers, the configuration items of [etc.config.Conf] and the
      operating-system helpers are gathered in a record [Env].
    - Console output ([print]) and the warning filter are not modelled. *)

From stdpp Require Import base numbers list strings gmap sorting.
From Stdlib Require Import QArith Qcanon Ascii.

Local Open Scope Z_scope.
Local Open Scope Qc_scope.

(** ** Exact numbers *)

Module Num.

(** A decimal literal [n / d], e.g. [dec 99 100] for [0.99]. *)
Definition dec (n : Z) (d : positive) : Qc := Q2Qc (n # d).

Definition Qcmax (x y : Qc) : Qc := if decide (x ≤ y) then y else x.

Definition Qcabs (x : Qc) : Qc := if decide (0 ≤ x) then x else - x.

(** [sum()] and [mean()] of a numpy array. The mean of an empty array is
    [nan] in numpy; here it is [0 / 0 = 0], and like [nan] it is not
    greater than [1]. *)
Definition np_sum (l : list Qc) : Qc := foldr Qcplus 0 l.

Definition np_mean (l : list Qc) : Qc :=
  np_sum l / Qc_of_Z (Z.of_nat (length l)).

(** [|x - y| <= tol] *)
Definition approx (tol x y : Qc) : Prop := Qcabs (x - y) ≤ tol.

Global Instance approx_dec tol x y : Decision (approx tol x y).
Proof. unfold approx. apply _. Defined.

End Num.
Export Num.

(** ** Exceptions and the exception monad over a state *)

Inductive exn : Type :=
  | ETCError (msg : string)
  | KeyError (key : string)
  | ValueError
  | TypeError
  | AttributeError (attr : string)
  | ZeroDivisionError
  | IncompatibleSources
  | ZeroWavelength
  | UnsortedWavelength
  | DuplicateWavelength
  | OSError (msg : string).

Global Instance exn_eq_dec : EqDecision exn.
Proof. solve_decision. Defined.

Definition result (A : Type) : Type := exn + A.

Global Instance result_ret : MRet result := λ A a, inr a.

Global Instance result_bind : MBind result := λ A B f r,
  match r with
  | inr a => f a
  | inl e => inl e
  end.

Definition M (St A : Type) : Type := St → result A * St.

Global Instance M_ret {St} : MRet (M St) := λ A a s, (inr a, s).

Global Instance M_bind {St} : MBind (M St) := λ A B f m s,
  match m s with
  | (inr a, s') => f a s'
  | (inl e, s') => (inl e, s')
  end.

Definition raise {St A} (e : exn) : M St A := λ s, (inl e, s).

Definition lift {St A} (r : result A) : M St A := λ s, (r, s).

(** [try: m except P: h] runs the handler on the exceptions selected by [P];
    the state reached when the exception was raised is kept. *)
Definition try_except {St A} (m : M St A) (P : exn → bool) (h : M St A) : M St A :=
  λ s, match m s with
       | (inl e, s') => if P e then h s' else (inl e, s')
       | r => r
       end.

Definition is_KeyError (e : exn) : bool :=
  match e with KeyError _ => true | _ => false end.

Definition is_ValueError (e : exn) : bool :=
  match e with ValueError => true | _ => false end.

(** Python's [x ** n] for a float [x] and an integer [n]. The exact power
    has no largest value: the [OverflowError] that a float power raises
    beyond the range of doubles is outside this idealisation, and nothing
    here says that a power succeeds in the code. *)
Definition py_pow (x : Qc) (n : Z) : result Qc :=
  match n with
  | Z0 => inr 1
  | Zpos p => inr (x ^ Pos.to_nat p)
  | Zneg p => if decide (x = 0) then inl ZeroDivisionError
              else inr (/ (x ^ Pos.to_nat p))
  end.

(** ** Units, arrays and table headers *)

Inductive Unit : Type :=
  | nm | AA | micron | m
  | dimensionless_unscaled | percent | THROUGHPUT.

Global Instance Unit_eq_dec : EqDecision Unit.
Proof. solve_decision. Defined.

(** An array of numbers; [q_unit = None] for a plain Python list, [Some u]
    for an astropy [Quantity]. *)
Record Quantity : Type := mkQuantity {
  q_value : list Qc;
  q_unit : option Unit
}.

(** Wavelengths are Angstrom inside the spectrum library. *)
Definition to_angstrom (u : option Unit) (w : Qc) : Qc :=
  match u with
  | Some nm => Qc_of_Z 10 * w
  | Some micron => Qc_of_Z 10000 * w
  | _ => w
  end.

Definition angstroms (q : Quantity) : list Qc :=
  to_angstrom (q_unit q) <$> q_value q.

(** [np.arange(300, 1501, 1) * u.nm] *)
Definition arange_300_1501_nm : Quantity :=
  {| q_value := Qc_of_Z <$> seqZ 300 1201; q_unit := Some nm |}.

(** [len(wavelengths) * [x,]] *)
Definition uniform (wavelengths : Quantity) (x : Qc) : Quantity :=
  {| q_value := replicate (length (q_value wavelengths)) x; q_unit := None |}.

(** An [astropy] configuration item: calling it gives the file name, and it
    carries a description. *)
Record ConfigItem : Type := mkConfigItem {
  ci_call : string;
  description : string
}.

Inductive hval : Type :=
  | HStr (s : string)
  | HItem (c : ConfigItem).

(** The [meta] dictionary of a spectrum: [{'header': ..., 'expr': ...}]. *)
Record Meta : Type := mkMeta {
  header : gmap string hval;
  expr : option string
}.

(** What a reader of [synphot.specio] returns. *)
Record Spec : Type := mkSpec {
  s_header : gmap string hval;
  s_wavelengths : Quantity;
  s_throughput : Quantity
}.

(** ** The spectrum interface (synphot) *)

Inductive SpectrumClass : Type := BaseUnitlessSpectrum | SpectralElement.

Class SpectrumOps (S : Type) : Type := {
  (** [cls(Empirical1D, points=, lookup_table=, keep_neg=, meta=)];
      [keep_neg = None] when the keyword is not given. *)
  Empirical1D : SpectrumClass → Quantity → Quantity → option bool → Meta → S;
  (** [a.__mul__(b)] and [a.__truediv__(b)] for a spectrum [b] *)
  spectrum_mul : S → S → S;
  spectrum_div : S → S → S;
  (** the same for a number *)
  spectrum_scale : S → Qc → S;
  spectrum_unscale : S → Qc → S;
  (** [a.waveset] and [a(x)], wavelengths in Angstrom *)
  waveset : S → list Qc;
  spectrum_call : S → Qc → Qc
}.

Class SpectrumLaws (S : Type) {ops : SpectrumOps S} : Prop := {
  (** a table sampled at strictly increasing wavelengths, negative values
      kept, yields its own samples at the tabulated wavelengths *)
  call_sample cls pts tbl meta i w v :
    StronglySorted Qclt (q_value pts) →
    q_unit tbl = None →
    q_value pts !! i = Some w →
    q_value tbl !! i = Some v →
    spectrum_call (Empirical1D cls pts tbl (Some true) meta)
                  (to_angstrom (q_unit pts) w) = v;
  waveset_table cls pts tbl kn meta :
    StronglySorted Qclt (q_value pts) →
    waveset (Empirical1D cls pts tbl kn meta) = angstroms pts;
  (** a product is the pointwise product on the wavelengths both operands
      are sampled at, and two operands on one grid give that grid *)
  call_mul a b x :
    x ∈ waveset a → x ∈ waveset b →
    spectrum_call (spectrum_mul a b) x = spectrum_call a x * spectrum_call b x;
  waveset_mul a b :
    waveset a = waveset b → waveset (spectrum_mul a b) = waveset a;
  (** the metadata plays no part in the values *)
  call_meta cls pts tbl kn meta meta' x :
    spectrum_call (Empirical1D cls pts tbl kn meta) x =
    spectrum_call (Empirical1D cls pts tbl kn meta') x;
  waveset_meta cls pts tbl kn meta meta' :
    waveset (Empirical1D cls pts tbl kn meta) =
    waveset (Empirical1D cls pts tbl kn meta')
}.

(** ** Strings *)

Module PyStr.

Definition upper_ascii (c : ascii) : ascii :=
  let n := nat_of_ascii c in
  if ((97 <=? n) && (n <=? 122))%nat then ascii_of_nat (n - 32) else c.

Definition lower_ascii (c : ascii) : ascii :=
  let n := nat_of_ascii c in
  if ((65 <=? n) && (n <=? 90))%nat then ascii_of_nat (n + 32) else c.

Fixpoint map (f : ascii → ascii) (s : string) : string :=
  match s with
  | EmptyString => EmptyString
  | String c s' => String (f c) (map f s')
  end.

(** [s.upper()], [s.lower()] and [needle in s] *)
Definition upper : string → string := map upper_ascii.
Definition lower : string → string := map lower_ascii.
Definition contains (needle s : string) : bool :=
  bool_decide (is_Some (String.index 0 needle s)).

End PyStr.

(** ** The outside world *)

(** The configuration items of [etc.config.Conf] that the filter mapping
    names. *)
Record Conf_items : Type := {
  lco_u_file : ConfigItem;  lco_g_file : ConfigItem;
  lco_r_file : ConfigItem;  lco_i_file : ConfigItem;
  lco_zs_file : ConfigItem;
  lco_c2_file : ConfigItem; lco_c3_file : ConfigItem;
  lco_oh_file : ConfigItem; lco_cn_file : ConfigItem;
  lco_nh2_file : ConfigItem; lco_cr_file : ConfigItem;
  lco_U_file : ConfigItem;  lco_B_file : ConfigItem;
  lco_V_file : ConfigItem;  lco_R_file : ConfigItem;
  lco_I_file : ConfigItem;
  wht_U_file : ConfigItem;  wht_B_file : ConfigItem;
  wht_V_file : ConfigItem;  wht_R_file : ConfigItem;
  wht_I_file : ConfigItem
}.

(** An astropy table: named columns in order. *)
Record Column : Type := mkColumn {
  col_data : list Qc;
  col_unit : option Unit
}.

Definition QTable : Type := list (string * Column).

Class Env : Type := {
  Conf : Conf_items;
  (** [os.path.expandvars], [os.path.exists] and
      [pkg_resources.files('etc.data').joinpath] *)
  expandvars : string → string;
  path_exists : string → bool;
  etc_data : string → string;
  (** what [float(s)] gives for a string; [None] is [ValueError] *)
  float_of_str : string → option Qc;
  (** [specio.read_spec(file, wave_col=, flux_col=, wave_unit=, flux_unit=)] *)
  read_spec : string → string → string → Unit → Unit → result Spec;
  (** [specio.read_ascii_spec(file, wave_unit=, flux_unit=)] *)
  read_ascii_spec : string → Unit → Unit → result Spec;
  (** [specio.read_remote_spec(url, wave_unit=, flux_unit=)] *)
  read_remote_spec : string → Unit → Unit → result Spec;
  (** [QTable.read(file, format=, header_start=, data_start=)] *)
  QTable_read : string → string → nat → nat → result QTable
}.

(** Every call of a reader is recorded, in order. *)
Inductive io_event : Type :=
  | Read_spec (file wave_col flux_col : string) (wave_unit flux_unit : Unit)
  | Read_ascii_spec (file : string) (wave_unit flux_unit : Unit)
  | Read_remote_spec (url : string) (wave_unit flux_unit : Unit)
  | Read_QTable (file format : string) (header_start data_start : nat).

Definition IO : Type → Type := M (list io_event).

Definition io {A} (ev : io_event) (r : result A) : IO A :=
  λ log, (r, log ++ [ev]).

(** A keyword argument that is either a number or a string. *)
Inductive arg : Type :=
  | ANum (x : Qc)
  | AStr (s : string).

(** [float(a)] *)
Definition float {env : Env} (a : arg) : result Qc :=
  match a with
  | ANum x => inr x
  | AStr s => match float_of_str s with
              | Some x => inr x
              | None => inl ValueError
              end
  end.

(** ** Objects *)

Record Site (S : Type) : Type := mkSite {
  site_name : string;
  site_altitude : option Qc;
  site_latitude : option Qc;
  site_longitude : option Qc;
  (** the attribute exists only when the keyword [transmission] was given *)
  site_transmission : option S
}.

Record Telescope (S : Type) : Type := mkTelescope {
  tel_name : string;
  tel_size : Qc;
  tel_area : Qc;
  tel_num_mirrors : Z;
  tel_reflectivity : S
}.

(** [self.ccd] is a number or a spectrum. *)
Inductive ccd_t (S : Type) : Type :=
  | CcdNum (x : Qc)
  | CcdSpectrum (s : S).

Record Instrument (S : Type) : Type := mkInstrument {
  ins_name : string;
  ins_inst_type : string;
  ins_num_ar_coatings : Z;
  ins_num_lenses : Z;
  ins_num_mirrors : Z;
  ins_lens_trans : Qc;
  ins_mirror_refl : Qc;
  ins_ar_coating : Qc;
  ins_transmission : S;
  ins_filterlist : list string;
  (** an [OrderedDict]: keys in insertion order, no key twice *)
  ins_filterset : list (string * S);
  ins_ccd : ccd_t S
}.

Arguments mkSite {S}. Arguments site_name {S}. Arguments site_altitude {S}.
Arguments site_latitude {S}. Arguments site_longitude {S}.
Arguments site_transmission {S}.
Arguments mkTelescope {S}. Arguments tel_name {S}. Arguments tel_size {S}.
Arguments tel_area {S}. Arguments tel_num_mirrors {S}.
Arguments tel_reflectivity {S}.
Arguments CcdNum {S}. Arguments CcdSpectrum {S}.
Arguments mkInstrument {S}. Arguments ins_name {S}.
Arguments ins_inst_type {S}. Arguments ins_num_ar_coatings {S}.
Arguments ins_num_lenses {S}. Arguments ins_num_mirrors {S}.
Arguments ins_lens_trans {S}. Arguments ins_mirror_refl {S}.
Arguments ins_ar_coating {S}. Arguments ins_transmission {S}.
Arguments ins_filterlist {S}. Arguments ins_filterset {S}.
Arguments ins_ccd {S}.

(** Dictionary operations on an [OrderedDict]. *)
Module OrderedDict.
Section ops.
Context {V : Type}.

Fixpoint get (k : string) (d : list (string * V)) : option V :=
  match d with
  | [] => None
  | (k', v) :: d' => if decide (k = k') then Some v else get k d'
  end.

(** [d[k] = v]: replaces in place, or appends a new key at the end *)
Fixpoint set (k : string) (v : V) (d : list (string * V)) : list (string * V) :=
  match d with
  | [] => [(k, v)]
  | (k', v') :: d' =>
      if decide (k = k') then (k, v) :: d' else (k', v') :: set k v d'
  end.

Definition keys (d : list (string * V)) : list string := d.*1.
End ops.
End OrderedDict.

(** Python values that reach the operators, and the store of objects.
    Objects are mutable and passed by reference: a [VRef] names a cell of
    the heap. *)
Definition loc : Type := positive.

Inductive obj (S : Type) : Type :=
  | OSite (s : Site S)
  | OTelescope (t : Telescope S)
  | OInstrument (i : Instrument S).

Inductive value (S : Type) : Type :=
  | VNum (x : Qc)
  | VSpectrum (s : S)
  | VRef (l : loc).

Arguments OSite {S}. Arguments OTelescope {S}. Arguments OInstrument {S}.
Arguments VNum {S}. Arguments VSpectrum {S}. Arguments VRef {S}.

Definition Heap (S : Type) : Type → Type := M (gmap loc (obj S)).

Definition get_heap {S} : Heap S (gmap loc (obj S)) := λ h, (inr h, h).

Definition setattr {S} (l : loc) (o : obj S) : Heap S unit :=
  λ h, (inr (), <[l := o]> h).

(** [for x in l: a = body a x] *)
Fixpoint for_each {St A B} (l : list B) (body : A → B → M St A) (a : A) : M St A :=
  match l with
  | [] => mret a
  | x :: l' => a' ← body a x; for_each l' body a'
  end.

(** The operators of a spectrum accept a number or another spectrum and
    nothing else. *)
Module Spectrum.
Section methods.
Context {S : Type} {ops : SpectrumOps S}.

Definition __mul__ (self : S) (other : value S) : result S :=
  match other with
  | VNum k => inr (spectrum_scale self k)
  | VSpectrum o => inr (spectrum_mul self o)
  | VRef _ => inl IncompatibleSources
  end.

Definition __rmul__ (self : S) (other : value S) : result S :=
  __mul__ self other.

(** A number divides through its inverse, so the number zero raises
    [ZeroDivisionError]. *)
Definition __truediv__ (self : S) (other : value S) : result S :=
  match other with
  | VNum k => if decide (k = 0) then inl ZeroDivisionError
              else inr (spectrum_unscale self k)
  | VSpectrum o => inr (spectrum_div self o)
  | VRef _ => inl IncompatibleSources
  end.

(** The library's check of a list of wavelengths given for sampling: all
    positive, in ascending or descending order, no value twice; the three
    checks are made in that order. *)
Definition validate_wavelengths (wave : list Qc) : result unit :=
  if decide (Exists (λ w, w ≤ 0) wave) then inl ZeroWavelength
  else if decide (Sorted Qcle wave ∨ Sorted (λ x y, y ≤ x) wave) then
    if decide (NoDup wave) then inr () else inl DuplicateWavelength
  else inl UnsortedWavelength.

(** [self._validate_wavelengths(wave)]: the wave set of the spectrum when
    [wave] is [None], the given wavelengths, once checked, otherwise. *)
Definition _validate_wavelengths (self : S) (wave : option (list Qc))
    : result (list Qc) :=
  match wave with
  | None => inr (waveset self)
  | Some w => validate_wavelengths w;; mret w
  end.
End methods.
End Spectrum.

(** ** class Site *)

Module Site.
Section methods.
Context {S : Type} {ops : SpectrumOps S} {env : Env}.

Definition __init__ (name : option string)
    (altitude latitude longitude : option Qc)
    (transmission : option arg) : IO (Site S) :=
  let name := default "Undefined" name in
  match transmission with
  | Some kw =>
      '(header, wavelengths, throughput) ←
        try_except
          (transmission ← lift (float kw);
           let wavelengths := arange_300_1501_nm in
           let throughput := uniform wavelengths transmission in
           mret (∅, wavelengths, throughput))
          is_ValueError
          (match kw with
           | AStr path =>
               let sky_file := expandvars path in
               r ← try_except
                 (io (Read_spec sky_file "lam" "trans" nm dimensionless_unscaled)
                     (read_spec sky_file "lam" "trans" nm dimensionless_unscaled))
                 is_KeyError
                 (* ESO-SM01 format; different column name for
                    transmission and micron vs nm *)
                 (io (Read_spec sky_file "lam" "flux" micron dimensionless_unscaled)
                     (read_spec sky_file "lam" "flux" micron dimensionless_unscaled));
               mret (s_header r, s_wavelengths r, s_throughput r)
           | ANum _ => raise TypeError
           end);
      mret (mkSite name altitude latitude longitude
              (Some (Empirical1D BaseUnitlessSpectrum wavelengths throughput
                       (Some false) {| header := header; expr := None |})))
  | None => mret (mkSite name altitude latitude longitude None)
  end.

(** The object the constructor returns for a table [r] that a reader
    gave (line 53). *)
Definition of_table (name : option string)
    (altitude latitude longitude : option Qc) (r : Spec) : Site S :=
  mkSite (default "Undefined" name) altitude latitude longitude
    (Some (Empirical1D BaseUnitlessSpectrum (s_wavelengths r)
             (s_throughput r) (Some false)
             {| header := s_header r; expr := None |})).

Definition __mul__ (self : loc) (other : value S) : Heap S (value S) :=
  h ← get_heap;
  let other :=
    match other with
    | VRef l => match h !! l with
                | Some (OTelescope t) => VSpectrum (tel_reflectivity t)
                | _ => other
                end
    | _ => other
    end in
  let other :=
    match other with
    | VRef l => match h !! l with
                | Some (OInstrument i) => VSpectrum (ins_transmission i)
                | _ => other
                end
    | _ => other
    end in
  let newcls := self in
  match h !! self with
  | Some (OSite s) =>
      match site_transmission s with
      | Some t =>
          r ← lift (Spectrum.__mul__ t other);
          setattr newcls
            (OSite (mkSite (site_name s) (site_altitude s) (site_latitude s)
                      (site_longitude s) (Some r)));;
          mret (VRef newcls)
      | None => raise (AttributeError "transmission")
      end
  | _ => raise TypeError
  end.

Definition __rmul__ (self : loc) (other : value S) : Heap S (value S) :=
  __mul__ self other.

Definition __truediv__ (self : loc) (other : value S) : Heap S (value S) :=
  h ← get_heap;
  let newcls := self in
  match h !! self with
  | Some (OSite s) =>
      match site_transmission s with
      | Some t =>
          r ← lift (Spectrum.__truediv__ t other);
          setattr newcls
            (OSite (mkSite (site_name s) (site_altitude s) (site_latitude s)
                      (site_longitude s) (Some r)));;
          mret (VRef newcls)
      | None => raise (AttributeError "transmission")
      end
  | _ => raise TypeError
  end.
End methods.
End Site.

(** ** class Telescope *)

Module Telescope.
Section methods.
Context {S : Type} {ops : SpectrumOps S} {env : Env}.

Definition __init__ (name : option string) (size area : Qc)
    (num_mirrors : Z) (reflectivity : option arg) : IO (Telescope S) :=
  let name := default "Undefined" name in
  (* Default value based on average of bare Al over 300-1200nm *)
  let kw := default (ANum (dec 91 100)) reflectivity in
  '(header, wavelengths, refl) ←
    try_except
      (reflectivity ← lift (float kw);
       let wavelengths := arange_300_1501_nm in
       let refl := uniform wavelengths reflectivity in
       mret (∅, wavelengths, refl))
      is_ValueError
      (match kw with
       | AStr path =>
           let file_path := expandvars path in
           let file_path :=
             if path_exists file_path then file_path else etc_data path in
           r ← io (Read_ascii_spec file_path nm percent)
                  (read_ascii_spec file_path nm percent);
           mret (s_header r, s_wavelengths r, s_throughput r)
       | ANum _ => raise TypeError
       end);
  let mirror_se :=
    Empirical1D BaseUnitlessSpectrum wavelengths refl (Some true)
      {| header := header; expr := None |} in
  (* Assume all mirrors are the same reflectivity and multiply together *)
  let reflectivity :=
    foldl (λ reflectivity _, spectrum_mul reflectivity mirror_se)
          mirror_se (seqZ 0 (num_mirrors - 1)) in
  mret (mkTelescope name size area num_mirrors reflectivity).

(** The per-mirror spectrum [mirror_se] of a scalar reflectivity [r]
    (lines 90-93 and 100). *)
Definition scalar_mirror (r : Qc) : S :=
  Empirical1D BaseUnitlessSpectrum arange_300_1501_nm
    (uniform arange_300_1501_nm r) (Some true)
    {| header := ∅; expr := None |}.

(** The object the constructor returns for the table [r] of one mirror
    that a reader gave (lines 100-104). *)
Definition of_table (name : option string) (size area : Qc)
    (n : Z) (r : Spec) : Telescope S :=
  let mirror_se :=
    Empirical1D BaseUnitlessSpectrum (s_wavelengths r) (s_throughput r)
      (Some true) {| header := s_header r; expr := None |} in
  mkTelescope (default "Undefined" name) size area n
    (Nat.iter (Z.to_nat (n - 1)) (λ c, spectrum_mul c mirror_se) mirror_se).

(** [wavelengths = None] samples the wave set of the reflectivity; given
    wavelengths are validated first; [max()] of an empty array is a
    [ValueError]. *)
Definition tpeak (self : Telescope S) (wavelengths : option (list Qc)) : result Qc :=
  x ← Spectrum._validate_wavelengths (tel_reflectivity self) wavelengths;
  match spectrum_call (tel_reflectivity self) <$> x with
  | [] => inl ValueError
  | y :: ys => inr (foldl Qcmax y ys)
  end.

Definition __mul__ (self : loc) (other : value S) : Heap S (value S) :=
  h ← get_heap;
  let newcls := self in
  match h !! self with
  | Some (OTelescope t) =>
      r ← lift (Spectrum.__mul__ (tel_reflectivity t) other);
      setattr newcls
        (OTelescope (mkTelescope (tel_name t) (tel_size t) (tel_area t)
                       (tel_num_mirrors t) r));;
      mret (VRef newcls)
  | _ => raise TypeError
  end.

Definition __rmul__ (self : loc) (other : value S) : Heap S (value S) :=
  __mul__ self other.

Definition __truediv__ (self : loc) (other : value S) : Heap S (value S) :=
  h ← get_heap;
  let newcls := self in
  match h !! self with
  | Some (OTelescope t) =>
      r ← lift (Spectrum.__truediv__ (tel_reflectivity t) other);
      setattr newcls
        (OTelescope (mkTelescope (tel_name t) (tel_size t) (tel_area t)
                       (tel_num_mirrors t) r));;
      mret (VRef newcls)
  | _ => raise TypeError
  end.
End methods.
End Telescope.

(** ** class Instrument *)

Module Instrument.

(** The keyword arguments of the constructor; [None] when not given. *)
Record kwargs : Type := {
  num_ar_coatings : option Z;
  num_inst_lenses : option Z;
  num_inst_mirrors : option Z;
  inst_lens_trans : option Qc;
  inst_mirror_refl : option Qc;
  inst_ar_coating_refl : option Qc;
  filterlist : option (list string);
  ccd : option arg
}.

Definition no_kwargs : kwargs :=
  {| num_ar_coatings := None; num_inst_lenses := None;
     num_inst_mirrors := None; inst_lens_trans := None;
     inst_mirror_refl := None; inst_ar_coating_refl := None;
     filterlist := None; ccd := None |}.

(** This calculates the optical transmission of the instrument from
    lenses, mirrors and AR coatings; the arguments are the attributes of
    [self] that the method reads. *)
Definition _compute_transmission
    (ar_coating : Qc) (num_ar_coatings : Z)
    (lens_trans : Qc) (num_lenses : Z)
    (mirror_refl : Qc) (num_mirrors : Z) : result Qc :=
  (* Air-glass interfaces: *)
  throughput ← py_pow ar_coating num_ar_coatings;
  (* Transmissive optical elements *)
  f ← py_pow lens_trans num_lenses;
  let throughput := throughput * f in
  (* Reflective optical elements (Mirrors): *)
  f ← py_pow mirror_refl num_mirrors;
  let throughput := throughput * f in
  mret throughput.

(** [table[name]], [table.rename_column(old, new)] and
    [table[name].unit = u]. Renaming raises [KeyError] when there is no
    column [old], and also when [new] is another column already. *)
Fixpoint getitem (name : string) (t : QTable) : result Column :=
  match t with
  | [] => inl (KeyError name)
  | (k, c) :: t' => if decide (k = name) then inr c else getitem name t'
  end.

Fixpoint rename_first (old new : string) (t : QTable) : QTable :=
  match t with
  | [] => []
  | (k, c) :: t' =>
      if decide (k = old) then (new, c) :: t'
      else (k, c) :: rename_first old new t'
  end.

Definition rename_column (old new : string) (t : QTable) : result QTable :=
  match getitem old t with
  | inl _ => inl (KeyError old)
  | inr _ =>
      if decide (old = new) then inr t
      else match getitem new t with
           | inr _ => inl (KeyError new)
           | inl _ => inr (rename_first old new t)
           end
  end.

Fixpoint set_unit (name : string) (u : Unit) (t : QTable) : result QTable :=
  match t with
  | [] => inl (KeyError name)
  | (k, c) :: t' =>
      if decide (k = name) then inr ((k, mkColumn (col_data c) (Some u)) :: t')
      else t'' ← set_unit name u t'; mret ((k, c) :: t'')
  end.

Definition quantity (c : Column) : Quantity :=
  {| q_value := col_data c; q_unit := col_unit c |}.

(** The catalogue of filter names; a dictionary literal. *)
Definition mapping {env : Env} : gmap string ConfigItem :=
  list_to_map
    [ ("u", lco_u_file Conf); ("g", lco_g_file Conf);
      ("r", lco_r_file Conf); ("i", lco_i_file Conf);
      ("z", lco_zs_file Conf); ("zs", lco_zs_file Conf);
      ("C2", lco_c2_file Conf); ("C3", lco_c3_file Conf);
      ("OH", lco_oh_file Conf); ("CN", lco_cn_file Conf);
      ("NH2", lco_nh2_file Conf); ("CR", lco_cr_file Conf);
      ("U", lco_U_file Conf); ("B", lco_B_file Conf);
      ("V", lco_V_file Conf); ("R", lco_R_file Conf);
      ("I", lco_I_file Conf);
      ("WHT_U", wht_U_file Conf); ("WHT_B", wht_B_file Conf);
      ("WHT_V", wht_V_file Conf); ("WHT_R", wht_R_file Conf);
      ("WHT_I", wht_I_file Conf) ].

(** [if len(filtername) == 2 and filtername[1] == 'p':
       filtername = filtername[0]] *)
Definition strip_p (filtername : string) : string :=
  if bool_decide (String.length filtername = 2%nat)
     && bool_decide (String.get 1 filtername = Some "p"%char)
  then match filtername with
       | String c _ => String c EmptyString
       | EmptyString => filtername
       end
  else filtername.

(** Lines 183-185 of the constructor: a table whose mean exceeds one is
    taken to be in percent. *)
Definition percent_to_fraction (header : gmap string hval) (throughput : Quantity)
    : gmap string hval * Quantity :=
  if decide (1 < np_mean (q_value throughput)) then
    (<["notes" := HStr "Divided by 100.0 to convert from percentage"]> header,
     {| q_value := (λ x, x / Qc_of_Z 100) <$> q_value throughput;
        q_unit := q_unit throughput |})
  else (header, throughput).

(** The file a detector name resolves to (lines 179-181). *)
Definition ccd_file {env : Env} (path : string) : string :=
  if path_exists (expandvars path) then expandvars path else etc_data path.

Section methods.
Context {S : Type} {ops : SpectrumOps S} {env : Env}.

(** Reads filter transmission files in LCO Imaging Lab v1 format (CSV
    file with header and data). Returns an empty header dictionary and
    the wavelength and transmission columns. *)
Definition _read_lco_filter_csv (csv_filter : string) : IO Spec :=
  table ← io (Read_QTable csv_filter "ascii.csv" 0 64)
             (QTable_read csv_filter "ascii.csv" 0%nat 64%nat);
  lift (table ← rename_column "ILDIALCT" "Wavelength" table;
        table ← set_unit "Wavelength" nm table;
        table ← rename_column "ilab_v1" "Trans_measured" table;
        table ← set_unit "Trans_measured" dimensionless_unscaled table;
        table ← rename_column "FITS/CSV file dialect" "Trans_filtered" table;
        w ← getitem "Wavelength" table;
        t ← getitem "Trans_measured" table;
        mret (mkSpec ∅ (quantity w) (quantity t))).

(** Lines 241-251: the reader is chosen by the shape of the file name. *)
Definition read_filter (filename : ConfigItem) : IO Spec :=
  if PyStr.contains "LCO_" (PyStr.upper (ci_call filename))
     && PyStr.contains ".csv" (PyStr.lower (ci_call filename))
  then
    let file_path := etc_data (expandvars (ci_call filename)) in
    _read_lco_filter_csv file_path
  else if PyStr.contains "http://svo" (PyStr.lower (ci_call filename))
  then
    io (Read_remote_spec (ci_call filename) AA THROUGHPUT)
       (read_remote_spec (ci_call filename) AA THROUGHPUT)
  else
    let file_path := etc_data (expandvars (ci_call filename)) in
    io (Read_ascii_spec file_path nm THROUGHPUT)
       (read_ascii_spec file_path nm THROUGHPUT).

(** Lines 252-256: the spectrum built from what the reader returned;
    [keep_neg] is not given. *)
Definition spectral_element (filename : ConfigItem) (filtername : string)
    (r : Spec) : S :=
  let header := s_header r in
  let header := <["filename" := HItem filename]> header in
  let header := <["descrip" := HStr (description filename)]> header in
  let meta := {| header := header; expr := Some filtername |} in
  Empirical1D SpectralElement (s_wavelengths r) (s_throughput r) None meta.

(** Loads the specified [filtername] from the transmission profile file
    which is mapped via the [etc.config.Conf] items. *)
Definition set_bandpass_from_filter (filtername : string) : IO S :=
  let filtername := strip_p filtername in
  match mapping !! filtername with
  | None => raise (ETCError ("Filter name " +:+ filtername +:+ " is invalid."))
  | Some filename =>
      r ← read_filter filename;
      mret (spectral_element filename filtername r)
  end.

(** Lines 166-169 of the constructor: the spectrum stored for the
    scalar transmission [t]. *)
Definition flat_transmission (t : Qc) : S :=
  Empirical1D SpectralElement arange_300_1501_nm
    (uniform arange_300_1501_nm t) (Some true)
    {| header := ∅; expr := None |}.

(** Lines 174-175, the body of the loop: a name already in the filter
    set is skipped, a new one is resolved and stored. *)
Definition filterset_step (filterset : list (string * S))
    (filtername : string) : IO (list (string * S)) :=
  if bool_decide (is_Some (OrderedDict.get filtername filterset))
  then mret filterset
  else c ← set_bandpass_from_filter filtername;
       mret (OrderedDict.set filtername c filterset).

(** Lines 172-175 of the constructor: the filter set is filled from
    the filter list, in order, each name resolved once. *)
Definition init_filterset (filterlist : list string) : IO (list (string * S)) :=
  for_each filterlist filterset_step [].

(** Every entry of a filter set is what resolving its own name gave. *)
Definition resolved (filterset : list (string * S)) : Prop :=
  ∀ k c, OrderedDict.get k filterset = Some c →
         ∃ l1 l2, set_bandpass_from_filter k l1 = (inr c, l2).

(** Lines 178-189 of the constructor: the detector is a number, or a
    table read from a file. *)
Definition init_ccd (ccd_qe : arg) : IO (ccd_t S) :=
  match ccd_qe with
  | AStr path =>
      let file_path := expandvars path in
      let file_path :=
        if path_exists file_path then file_path else etc_data path in
      r ← io (Read_ascii_spec file_path nm THROUGHPUT)
             (read_ascii_spec file_path nm THROUGHPUT);
      let '(header, throughput) :=
        percent_to_fraction (s_header r) (s_throughput r) in
      let header := <["filename" := HStr path]> header in
      mret (CcdSpectrum
              (Empirical1D BaseUnitlessSpectrum (s_wavelengths r)
                 throughput (Some false)
                 {| header := header; expr := None |}))
  | ANum x => mret (CcdNum x)
  end.

Definition __init__ (name : option string) (inst_type : string)
    (kw : kwargs) : IO (Instrument S) :=
  let _ins_types := ["IMAGER"; "SPECTROGRAPH"] in
  let name := default "Undefined" name in
  let inst_type :=
    if bool_decide (PyStr.upper inst_type ∈ _ins_types)
    then PyStr.upper inst_type else "IMAGER" in
  (* Defaults assume a "standard" imager with a single lens, 2 AR
     coatings on the front and back surfaces and no mirrors *)
  let num_ar_coatings := default 2%Z (num_ar_coatings kw) in
  let num_lenses := default 1%Z (num_inst_lenses kw) in
  let num_mirrors := default 0%Z (num_inst_mirrors kw) in
  let lens_trans := default (dec 9 10) (inst_lens_trans kw) in
  let mirror_refl := default (dec 9925 10000) (inst_mirror_refl kw) in
  (* Transmission/Reflection values of optical elements coating *)
  let ar_coating := default (dec 99 100) (inst_ar_coating_refl kw) in
  transmission ← lift (_compute_transmission ar_coating num_ar_coatings
                         lens_trans num_lenses mirror_refl num_mirrors);
  let transmission := flat_transmission transmission in
  let filterlist := default [] (filterlist kw) in
  filterset ← init_filterset filterlist;
  ccd ← init_ccd (default (ANum (dec 9 10)) (ccd kw));
  mret (mkInstrument name inst_type num_ar_coatings num_lenses num_mirrors
          lens_trans mirror_refl ar_coating transmission filterlist
          filterset ccd).

(** Returns the total throughput of optics+filter/grating+CCD *)
Definition throughput (self : Instrument S) (filtername : string) : result S :=
  if bool_decide (filtername ∉ ins_filterlist self)
     || bool_decide (OrderedDict.get filtername (ins_filterset self) = None)
  then inl (ETCError ("Filter name " +:+ filtername +:+ " is invalid."))
  else
    match OrderedDict.get filtername (ins_filterset self) with
    | Some f =>
        let ft := spectrum_mul f (ins_transmission self) in
        match ins_ccd self with
        | CcdNum x => inr (spectrum_scale ft x)
        | CcdSpectrum c => inr (spectrum_mul ft c)
        end
    | None => inl (KeyError filtername)
    end.
End methods.
End Instrument.

(** ** The binary operators [a * b] and [a / b]

    Python calls the method of the left operand; only when the left operand
    has no such method, or answers [NotImplemented] (a number facing
    anything but a number), is the reflected method of the right operand
    tried. An exception raised by the left method is final. *)
Section operators.
Context {S : Type} {ops : SpectrumOps S}.

Definition reflected_mul (b a : value S) : Heap S (value S) :=
  match b with
  | VRef lb =>
      h ← get_heap;
      match h !! lb with
      | Some (OSite _) => Site.__rmul__ lb a
      | Some (OTelescope _) => Telescope.__rmul__ lb a
      | _ => raise TypeError
      end
  | VSpectrum s => r ← lift (Spectrum.__rmul__ s a); mret (VSpectrum r)
  | VNum _ => raise TypeError
  end.

Definition py_mul (a b : value S) : Heap S (value S) :=
  match a with
  | VRef la =>
      h ← get_heap;
      match h !! la with
      | Some (OSite _) => Site.__mul__ la b
      | Some (OTelescope _) => Telescope.__mul__ la b
      | _ => reflected_mul b a
      end
  | VSpectrum s => r ← lift (Spectrum.__mul__ s b); mret (VSpectrum r)
  | VNum x =>
      match b with
      | VNum y => mret (VNum (x * y))
      | _ => reflected_mul b a
      end
  end.

(** No class of the module defines a reflected division. *)
Definition py_truediv (a b : value S) : Heap S (value S) :=
  match a with
  | VRef la =>
      h ← get_heap;
      match h !! la with
      | Some (OSite _) => Site.__truediv__ la b
      | Some (OTelescope _) => Telescope.__truediv__ la b
      | _ => raise TypeError
      end
  | VSpectrum s => r ← lift (Spectrum.__truediv__ s b); mret (VSpectrum r)
  | VNum x =>
      match b with
      | VNum y => if decide (y = 0) then raise ZeroDivisionError
                  else mret (VNum (x / y))
      | _ => raise TypeError
      end
  end.

(** Two states of one cell that differ at most in the spectrum the object
    stores: the same class and the same other attributes. *)
Definition same_but_curve (o o' : option (obj S)) : Prop :=
  match o, o' with
  | Some (OSite s), Some (OSite s') =>
      site_name s' = site_name s ∧ site_altitude s' = site_altitude s
      ∧ site_latitude s' = site_latitude s
      ∧ site_longitude s' = site_longitude s
      ∧ is_Some (site_transmission s) ∧ is_Some (site_transmission s')
  | Some (OTelescope t), Some (OTelescope t') =>
      tel_name t' = tel_name t ∧ tel_size t' = tel_size t
      ∧ tel_area t' = tel_area t ∧ tel_num_mirrors t' = tel_num_mirrors t
  | _, _ => False
  end.
End operators.

(** ** A table model of the spectrum interface

    Spectra as expression trees over sampled tables, evaluated lazily:
    a table yields its sample at a tabulated wavelength, interpolates
    linearly between two neighbours and is zero elsewhere; a product
    multiplies the values of its operands. It shows that the laws of
    [SpectrumLaws] can be met, and serves to run the classes on concrete
    data. *)
Module Tabulated.

Inductive spectrum : Type :=
  | Table (pts tbl : Quantity) (keep_neg : bool)
  | Mul (a b : spectrum)
  | Div (a b : spectrum)
  | Scale (a : spectrum) (k : Qc)
  | Unscale (a : spectrum) (k : Qc).

Fixpoint exact (x : Qc) (l : list (Qc * Qc)) : option Qc :=
  match l with
  | [] => None
  | (x0, y0) :: l' => if decide (x = x0) then Some y0 else exact x l'
  end.

Fixpoint between (x : Qc) (l : list (Qc * Qc)) : Qc :=
  match l with
  | (x0, y0) :: (((x1, y1) :: _) as l') =>
      if decide (x0 < x ∧ x < x1)
      then y0 + (y1 - y0) * (x - x0) / (x1 - x0)
      else between x l'
  | _ => 0
  end.

Definition samples (pts tbl : Quantity) (keep_neg : bool) : list (Qc * Qc) :=
  zip (angstroms pts)
      ((λ y, if keep_neg then y else Qcmax 0 y) <$> q_value tbl).

Fixpoint wave (s : spectrum) : list Qc :=
  match s with
  | Table pts _ _ => angstroms pts
  | Mul a b | Div a b => list_union (wave a) (wave b)
  | Scale a _ | Unscale a _ => wave a
  end.

Fixpoint call (s : spectrum) (x : Qc) : Qc :=
  match s with
  | Table pts tbl keep_neg =>
      let l := samples pts tbl keep_neg in
      default (between x l) (exact x l)
  | Mul a b => call a x * call b x
  | Div a b => call a x / call b x
  | Scale a k => call a x * k
  | Unscale a k => call a x / k
  end.

Global Instance ops : SpectrumOps spectrum := {|
  Empirical1D _ pts tbl keep_neg _ := Table pts tbl (default false keep_neg);
  spectrum_mul := Mul;
  spectrum_div := Div;
  spectrum_scale := Scale;
  spectrum_unscale := Unscale;
  waveset := wave;
  spectrum_call := call
|}.

End Tabulated.

(** ** A small observatory

    Configuration items, files and readers on which the classes can be run:
    a sky table in the primary dialect ([sky.dat]), one in the ESO dialect
    that lacks the column [trans] ([sky_eso.dat]), detector tables in
    percent and in fractions, one vendor CSV filter and one remote filter. *)
Module Lab.

Definition qty (l : list Qc) (u : Unit) : Quantity := mkQuantity l (Some u).

Definition nums (l : list Z) : list Qc := Qc_of_Z <$> l.

Definition conf : Conf_items := {|
  lco_u_file := mkConfigItem "http://svo2.cab.inta-csic.es/theory/fps/fps.php?ID=LCO/u" "LCO u";
  lco_g_file := mkConfigItem "LCO_gp.csv" "LCO g";
  lco_r_file := mkConfigItem "LCO_rp.csv" "LCO r";
  lco_i_file := mkConfigItem "LCO_ip.csv" "LCO i";
  lco_zs_file := mkConfigItem "zs.dat" "LCO zs";
  lco_c2_file := mkConfigItem "c2.dat" "C2";
  lco_c3_file := mkConfigItem "c3.dat" "C3";
  lco_oh_file := mkConfigItem "oh.dat" "OH";
  lco_cn_file := mkConfigItem "cn.dat" "CN";
  lco_nh2_file := mkConfigItem "nh2.dat" "NH2";
  lco_cr_file := mkConfigItem "cr.dat" "CR";
  lco_U_file := mkConfigItem "U.dat" "U";
  lco_B_file := mkConfigItem "B.dat" "B";
  lco_V_file := mkConfigItem "V.dat" "V";
  lco_R_file := mkConfigItem "R.dat" "R";
  lco_I_file := mkConfigItem "I.dat" "I";
  wht_U_file := mkConfigItem "wht_U.dat" "WHT U";
  wht_B_file := mkConfigItem "wht_B.dat" "WHT B";
  wht_V_file := mkConfigItem "wht_V.dat" "WHT V";
  wht_R_file := mkConfigItem "wht_R.dat" "WHT R";
  wht_I_file := mkConfigItem "wht_I.dat" "WHT I"
|}.

Definition sky : Spec :=
  mkSpec ∅ (qty (nums [300; 900; 1500]) nm)
           (qty [dec 7 10; dec 9 10; dec 8 10] dimensionless_unscaled).

Definition sky_eso : Spec :=
  mkSpec ∅ (qty [dec 3 10; dec 9 10; dec 15 10] micron)
           (qty [dec 7 10; dec 9 10; dec 8 10] dimensionless_unscaled).

Definition qe_percent : Spec :=
  mkSpec ∅ (qty (nums [300; 1500]) nm) (qty (nums [4; 8]) THROUGHPUT).

Definition qe_overrange : Spec :=
  mkSpec ∅ (qty (nums [300; 1500]) nm) (qty (nums [150; 250]) THROUGHPUT).

Definition qe_fraction : Spec :=
  mkSpec ∅ (qty (nums [300; 1500]) nm) (qty [dec 1 2; dec 9 10] THROUGHPUT).

Definition band (lo hi : Z) (u : Unit) : Spec :=
  mkSpec ∅ (qty (nums [lo; hi]) u) (qty [dec 8 10; dec 9 10] THROUGHPUT).

Definition csv : QTable :=
  [ ("ILDIALCT", mkColumn (nums [400; 550]) None);
    ("ilab_v1", mkColumn [dec 8 10; dec 9 10] None);
    ("FITS/CSV file dialect", mkColumn [dec 8 10; dec 9 10] None) ].

Definition env : Env := {|
  Conf := conf;
  expandvars s := s;
  path_exists s := bool_decide (s ∈ ["sky.dat"; "sky_eso.dat"]);
  etc_data s := "etc/data/" +:+ s;
  float_of_str s :=
    if decide (s = "0.8") then Some (dec 8 10) else None;
  read_spec file wave_col flux_col wave_unit flux_unit :=
    if decide (file = "sky.dat") then
      if decide (flux_col = "trans") then inr sky else inl (KeyError flux_col)
    else if decide (file = "sky_eso.dat") then
      if decide (flux_col = "flux") then inr sky_eso else inl (KeyError flux_col)
    else inl (OSError file);
  read_ascii_spec file wave_unit flux_unit :=
    if decide (file = "etc/data/qe_percent.dat") then inr qe_percent
    else if decide (file = "etc/data/qe_overrange.dat") then inr qe_overrange
    else if decide (file = "etc/data/qe.dat") then inr qe_fraction
    else if decide (file = "etc/data/zs.dat") then inr (band 820 920 wave_unit)
    else if decide (file = "etc/data/V.dat") then inr (band 500 600 wave_unit)
    else inl (OSError file);
  read_remote_spec url wave_unit flux_unit := inr (band 3200 3900 wave_unit);
  QTable_read file format header_start data_start :=
    if decide (file = "etc/data/LCO_gp.csv") then inr csv
    else inl (OSError file)
|}.

(** [Telescope(num_mirrors=0, reflectivity=0.9)]: the loop of the
    constructor does not run. *)
Definition refractor : Telescope Tabulated.spectrum :=
  mkTelescope "Undefined" 0 0 0 (Telescope.scalar_mirror (dec 9 10)).

(** What the names [z] and [zs] resolve to: the table of [zs.dat]. *)
Definition zs_band : Tabulated.spectrum :=
  Tabulated.Table (qty (nums [820; 920]) nm)
                  (qty [dec 8 10; dec 9 10] THROUGHPUT) false.

(** [Instrument(filterlist=['V', 'zp', 'V'])]. *)
Definition imager_filters : Instrument.kwargs :=
  {| Instrument.num_ar_coatings := None; Instrument.num_inst_lenses := None;
     Instrument.num_inst_mirrors := None; Instrument.inst_lens_trans := None;
     Instrument.inst_mirror_refl := None;
     Instrument.inst_ar_coating_refl := None;
     Instrument.filterlist := Some ["V"; "zp"; "V"];
     Instrument.ccd := None |}.

Definition imager : Instrument Tabulated.spectrum :=
  mkInstrument "Undefined" "IMAGER" 2 1 0
    (dec 9 10) (dec 9925 10000) (dec 99 100)
    (Instrument.flat_transmission
       (dec 99 100 ^ 2 * dec 9 10 ^ 1 * 1))
    ["V"; "zp"; "V"]
    [ ("V", Tabulated.Table (qty (nums [500; 600]) nm)
              (qty [dec 8 10; dec 9 10] THROUGHPUT) false);
      ("zp", zs_band) ]
    (CcdNum (dec 9 10)).

(** [Site(name='Paranal', transmission=0.9)] and
    [Telescope(name='NTT', num_mirrors=1, reflectivity=0.8)], held in two
    cells of the store. *)
Definition sky_09 : Tabulated.spectrum :=
  Tabulated.Table arange_300_1501_nm
    (uniform arange_300_1501_nm (dec 9 10)) false.

Definition site : Site Tabulated.spectrum :=
  mkSite "Paranal" None None None (Some sky_09).

Definition telescope : Telescope Tabulated.spectrum :=
  mkTelescope "NTT" 0 0 1 (Telescope.scalar_mirror (dec 8 10)).

Definition site_ref : loc := 1%positive.
Definition telescope_ref : loc := 2%positive.

Definition store : gmap loc (obj Tabulated.spectrum) :=
  {[ site_ref := OSite site; telescope_ref := OTelescope telescope ]}.

(** [Site(name='Bare')], built without the keyword [transmission], and the
    default instrument, in two further cells. *)
Definition bare_site : Site Tabulated.spectrum :=
  mkSite "Bare" None None None None.

Definition bare_ref : loc := 3%positive.
Definition instrument_ref : loc := 4%positive.

(** [Instrument()] with every keyword left out. *)
Definition default_instrument : Instrument Tabulated.spectrum :=
  mkInstrument "Undefined" "IMAGER" 2 1 0
    (dec 9 10) (dec 9925 10000) (dec 99 100)
    (Instrument.flat_transmission
       (dec 99 100 ^ 2 * dec 9 10 ^ 1 * 1))
    [] [] (CcdNum (dec 9 10)).

(** The store after [site * telescope]. *)
Definition store_after_product : gmap loc (obj Tabulated.spectrum) :=
  <[site_ref := OSite (mkSite "Paranal" None None None
                         (Some (Tabulated.Mul sky_09
                                  (Telescope.scalar_mirror (dec 8 10)))))]>
    store.

(** [Instrument(inst_ar_coating_refl=0, num_ar_coatings=-1,
    filterlist=['V'], ccd='qe.dat')]. *)
Definition broken_coating : Instrument.kwargs :=
  {| Instrument.num_ar_coatings := Some (-1)%Z;
     Instrument.num_inst_lenses := None;
     Instrument.num_inst_mirrors := None; Instrument.inst_lens_trans := None;
     Instrument.inst_mirror_refl := None;
     Instrument.inst_ar_coating_refl := Some 0;
     Instrument.filterlist := Some ["V"];
     Instrument.ccd := Some (AStr "qe.dat") |}.

(** [Instrument(inst_type='Spectrograph')]. *)
Definition spectrograph : Instrument Tabulated.spectrum :=
  mkInstrument "Undefined" "SPECTROGRAPH" 2 1 0
    (dec 9 10) (dec 9925 10000) (dec 99 100)
    (Instrument.flat_transmission
       (dec 99 100 ^ 2 * dec 9 10 ^ 1 * 1))
    [] [] (CcdNum (dec 9 10)).

(** [Instrument(filterlist=['V', 'nope', 'zs'], ccd='qe.dat')]. *)
Definition unknown_filter : Instrument.kwargs :=
  {| Instrument.num_ar_coatings := None; Instrument.num_inst_lenses := None;
     Instrument.num_inst_mirrors := None; Instrument.inst_lens_trans := None;
     Instrument.inst_mirror_refl := None;
     Instrument.inst_ar_coating_refl := None;
     Instrument.filterlist := Some ["V"; "nope"; "zs"];
     Instrument.ccd := Some (AStr "qe.dat") |}.

(** A vendor table that lacks the third column, and a world in which every
    CSV file is that table. *)
Definition csv_two_columns : QTable :=
  [ ("ILDIALCT", mkColumn (nums [400; 550]) None);
    ("ilab_v1", mkColumn [dec 8 10; dec 9 10] None) ].

Definition env_two_columns : Env := {|
  Conf := conf;
  expandvars s := s;
  path_exists s := false;
  etc_data s := "etc/data/" +:+ s;
  float_of_str s := None;
  read_spec file wave_col flux_col wave_unit flux_unit := inl (OSError file);
  read_ascii_spec file wave_unit flux_unit := inl (OSError file);
  read_remote_spec url wave_unit flux_unit := inl (OSError url);
  QTable_read file format header_start data_start := inr csv_two_columns
|}.

(** A sky table kept as text, with the columns [lam] and [flux] and no
    column [trans]. *)
Definition sky_text : QTable :=
  [ ("lam", mkColumn [dec 3 10; dec 9 10; dec 15 10] None);
    ("flux", mkColumn [dec 7 10; dec 9 10; dec 8 10] None) ].

(** The world of that file: its reader reports a column that it does not
    find as [ValueError], as the reader of text tables does. *)
Definition env_text : Env := {|
  Conf := conf;
  expandvars s := s;
  path_exists s := bool_decide (s = "sky_text.dat");
  etc_data s := "etc/data/" +:+ s;
  float_of_str s := None;
  read_spec file wave_col flux_col wave_unit flux_unit :=
    if decide (file = "sky_text.dat") then
      match Instrument.getitem wave_col sky_text,
            Instrument.getitem flux_col sky_text with
      | inr w, inr f =>
          inr (mkSpec ∅ (qty (col_data w) wave_unit) (qty (col_data f) flux_unit))
      | _, _ => inl ValueError
      end
    else inl (OSError file);
  read_ascii_spec file wave_unit flux_unit := inl (OSError file);
  read_remote_spec url wave_unit flux_unit := inl (OSError url);
  QTable_read file format header_start data_start := inl (OSError file)
|}.

Definition observatory : gmap loc (obj Tabulated.spectrum) :=
  {[ site_ref := OSite site; telescope_ref := OTelescope telescope;
     bare_ref := OSite bare_site; instrument_ref := OInstrument default_instrument ]}.

End Lab.

(** * Properties *)

(** ** Numbers *)

(** Closed equations between canonical rationals are settled on their
    fractions. *)
Ltac qc_eq := apply Qc_is_canon; vm_compute; reflexivity.

(** Closed decidable facts (orders, tolerances) are settled by evaluation. *)
Ltac by_decide := apply (bool_decide_unpack _); vm_compute; reflexivity.

Lemma py_pow_nat (x : Qc) (n : nat) : py_pow x (Z.of_nat n) = inr (x ^ n).
Proof.
  destruct n as [|n]; [done|].
  change (Z.of_nat (S n)) with (Z.pos (Pos.of_succ_nat n)).
  unfold py_pow. by rewrite SuccNat2Pos.id_succ.
Qed.

Lemma py_pow_neg_zero (n : Z) : (n < 0)%Z → py_pow 0 n = inl ZeroDivisionError.
Proof. destruct n; try lia; intros _. cbn. by rewrite decide_True. Qed.

(** ** The table model meets the laws *)

Module TabulatedLaws.
Import Tabulated.

Lemma to_angstrom_inj u : Inj (=) (=) (to_angstrom u).
Proof.
  assert (∀ k x y : Qc, k ≠ 0 → k * x = k * y → x = y) as Hcancel.
  { intros k x y Hk E.
    rewrite <-(Qcmult_1_l x), <-(Qcmult_1_l y), <-(Qcmult_inv_l k) by done.
    rewrite <-!Qcmult_assoc. by rewrite E. }
  intros x y. destruct u as [[]|]; simpl; try done;
    apply Hcancel; by intros [=].
Qed.

Lemma exact_zip (f : Qc → Qc) `{!Inj (=) (=) f} (pts tbl : list Qc) i w v :
  NoDup pts → pts !! i = Some w → tbl !! i = Some v →
  exact (f w) (zip (f <$> pts) tbl) = Some v.
Proof.
  intros Hnd; revert i tbl.
  induction Hnd as [|x pts Hx Hnd IH]; intros [|i] [|y tbl] ??;
    simplify_eq/=.
  - by rewrite decide_True.
  - rewrite decide_False; [by eapply IH|].
    intros ->%(inj f). apply Hx. by eapply list_elem_of_lookup_2.
Qed.

Lemma StronglySorted_Qclt_NoDup (l : list Qc) : StronglySorted Qclt l → NoDup l.
Proof.
  induction 1 as [|x l _ IH Hall]; constructor; [|done].
  intros Hx. rewrite Forall_forall in Hall.
  by destruct (irreflexivity Qclt x (Hall _ Hx)).
Qed.

Lemma list_union_diag (l : list Qc) : list_union l l = l.
Proof.
  unfold list_union.
  assert (∀ k, (∀ x, x ∈ k → x ∈ l) → list_difference k l = []) as ->; [|done|done].
  induction k as [|x k IH]; intros Hk; [done|]. simpl.
  destruct (decide_rel _ x l) as [_|Hn].
  - apply IH. intros ??; apply Hk; by right.
  - destruct Hn. apply Hk; left.
Qed.

Global Instance laws : SpectrumLaws spectrum.
Proof.
  split; try done.
  - intros cls [pts u] [tbl tu] meta i w v Hs Htu Hw Hv; simpl in *.
    unfold samples, angstroms; simpl. rewrite list_fmap_id.
    pose proof (to_angstrom_inj u).
    by rewrite (exact_zip (to_angstrom u) pts tbl i w v)
      by auto using StronglySorted_Qclt_NoDup.
  - intros a b E; simpl in *. rewrite E. apply list_union_diag.
Qed.

End TabulatedLaws.

(** ** The monad *)

Section monad_facts.
Context {St : Type}.

Lemma bind_inr {A B} (m : M St A) (f : A → M St B) s b s' :
  (m ≫= f) s = (inr b, s') ↔ ∃ a s1, m s = (inr a, s1) ∧ f a s1 = (inr b, s').
Proof.
  unfold mbind, M_bind. destruct (m s) as [[e|a] s1]; split.
  - intros [=].
  - intros (? & ? & [=] & _).
  - eauto.
  - by intros (? & ? & [= -> ->] & ?).
Qed.

Lemma bind_run {A B} (m : M St A) (f : A → M St B) s a s1 :
  m s = (inr a, s1) → (m ≫= f) s = f a s1.
Proof. unfold mbind, M_bind. by intros ->. Qed.

Lemma bind_raise {A B} (m : M St A) (f : A → M St B) s e s1 :
  m s = (inl e, s1) → (m ≫= f) s = (inl e, s1).
Proof. unfold mbind, M_bind. by intros ->. Qed.

Lemma lift_inr {A} (r : result A) (s : St) a s' :
  lift r s = (inr a, s') ↔ r = inr a ∧ s' = s.
Proof. unfold lift. split; [by intros [= -> ->]|by intros [-> ->]]. Qed.
End monad_facts.

(** ** The characterisation grid *)

Lemma StronglySorted_Qc_of_seqZ (m len : Z) :
  StronglySorted Qclt (Qc_of_Z <$> seqZ m len).
Proof.
  destruct (decide (len ≤ 0)%Z) as [|Hpos]; [by rewrite seqZ_nil; [constructor|]|].
  rewrite <-(Z2Nat.id len) by lia.
  generalize (Z.to_nat len) as n; clear; intros n; revert m.
  induction n as [|n IH]; intros m; [constructor|].
  rewrite seqZ_cons by lia. rewrite fmap_cons.
  replace (Z.pred (Z.of_nat (S n))) with (Z.of_nat n) by lia.
  constructor; [apply IH|].
  apply Forall_fmap, Forall_seqZ. intros k ?; simpl.
  apply (proj1 (Z2Qc_inj_lt m k)). lia.
Qed.

Lemma arange_sorted : StronglySorted Qclt (q_value arange_300_1501_nm).
Proof. apply StronglySorted_Qc_of_seqZ. Qed.

Lemma arange_length : length (q_value arange_300_1501_nm) = 1201%nat.
Proof.
  change (q_value arange_300_1501_nm) with (Qc_of_Z <$> seqZ 300 1201).
  by rewrite length_fmap, length_seqZ.
Qed.

(** The grid holds the integer wavelengths from 300 to 1500 nm. *)
Lemma elem_of_arange (w : Qc) :
  w ∈ q_value arange_300_1501_nm ↔ ∃ k : Z, (300 ≤ k ≤ 1500)%Z ∧ w = Qc_of_Z k.
Proof.
  change (q_value arange_300_1501_nm) with (Qc_of_Z <$> seqZ 300 1201).
  rewrite list_elem_of_fmap. setoid_rewrite elem_of_seqZ.
  split; intros (k & ? & ?); exists k; split; (done || lia).
Qed.

Lemma Qcmax_idemp (x : Qc) : Qcmax x x = x.
Proof. unfold Qcmax. by case_decide. Qed.

Lemma foldl_Qcmax_const (v : Qc) (l : list Qc) :
  Forall (λ y, y = v) l → foldl Qcmax v l = v.
Proof. induction 1 as [|? ? -> _ IH]; simpl; [done|]. by rewrite Qcmax_idemp. Qed.

(** ** The constructor of an instrument, step by step *)

Section instrument_init.
Context {S : Type} {ops : SpectrumOps S} {env : Env}.

Lemma Instrument_init_inv name inst_type kw log ins log' :
  Instrument.__init__ name inst_type kw log = (inr ins, log') →
  ∃ t log1,
    Instrument._compute_transmission
      (ins_ar_coating ins) (ins_num_ar_coatings ins)
      (ins_lens_trans ins) (ins_num_lenses ins)
      (ins_mirror_refl ins) (ins_num_mirrors ins) = inr t
    ∧ ins_ar_coating ins = default (dec 99 100) (Instrument.inst_ar_coating_refl kw)
    ∧ ins_num_ar_coatings ins = default 2%Z (Instrument.num_ar_coatings kw)
    ∧ ins_lens_trans ins = default (dec 9 10) (Instrument.inst_lens_trans kw)
    ∧ ins_num_lenses ins = default 1%Z (Instrument.num_inst_lenses kw)
    ∧ ins_mirror_refl ins = default (dec 9925 10000) (Instrument.inst_mirror_refl kw)
    ∧ ins_num_mirrors ins = default 0%Z (Instrument.num_inst_mirrors kw)
    ∧ ins_transmission ins = Instrument.flat_transmission t
    ∧ ins_filterlist ins = default [] (Instrument.filterlist kw)
    ∧ Instrument.init_filterset (ins_filterlist ins) log = (inr (ins_filterset ins), log1)
    ∧ Instrument.init_ccd (default (ANum (dec 9 10)) (Instrument.ccd kw)) log1
        = (inr (ins_ccd ins), log').
Proof.
  unfold Instrument.__init__. cbv zeta.
  intros (t & ? & [Ht ->]%lift_inr & Hrest)%bind_inr.
  apply bind_inr in Hrest as (fs & log1 & Hfs & Hrest).
  apply bind_inr in Hrest as (c & ? & Hc & [= <- <-]).
  exists t, log1. simpl. by rewrite Ht, Hfs, Hc.
Qed.
End instrument_init.

(** ** Internal transmission of an instrument *)

Section internal_transmission.
Context {S : Type} {ops : SpectrumOps S} {env : Env}.

Lemma compute_transmission_counts (ar lens mir : Qc) (a l m : nat) :
  Instrument._compute_transmission ar (Z.of_nat a) lens (Z.of_nat l) mir (Z.of_nat m)
  = inr (ar ^ a * lens ^ l * mir ^ m).
Proof.
  unfold Instrument._compute_transmission. by rewrite !py_pow_nat.
Qed.

Lemma compute_transmission_default :
  Instrument._compute_transmission (dec 99 100) 2 (dec 9 10) 1 (dec 9925 10000) 0
  = inr (dec 88209 100000).
Proof. unfold Instrument._compute_transmission; simpl. f_equal; try qc_eq. Qed.
End internal_transmission.

(** C6, as stated, fails on its own example: with two coatings of 0.99, one
    lens of 0.9 and no mirror the code yields 0.88209, which is 0.000135
    away from the 0.882225 of the claim, more than one part in ten
    thousand. *)
Lemma default_transmission_is_not_0_882225 :
  ∃ t, Instrument._compute_transmission
         (dec 99 100) 2 (dec 9 10) 1 (dec 9925 10000) 0 = inr t
       ∧ t - dec 882225 1000000 = - dec 135 1000000
       ∧ ¬ approx (dec 1 10000) t (dec 882225 1000000).
Proof.
  exists (dec 88209 100000). split; [apply compute_transmission_default|].
  split; [qc_eq|by_decide].
Qed.

(** C6, amended: the internal-transmission scalar is
    [ar_coating^num_ar_coatings * lens_trans^num_lenses *
    mirror_refl^num_mirrors] for all counts, every constructed instrument
    stores the uniform spectrum of that scalar over its own attributes, and
    the example of the claim (two coatings of 0.99, one lens of 0.9, no
    mirror) yields 0.88209. *)
Theorem internal_transmission_formula {S : Type} {ops : SpectrumOps S} {env : Env} :
  (∀ (ar lens mir : Qc) (a l m : nat),
     Instrument._compute_transmission ar (Z.of_nat a) lens (Z.of_nat l) mir (Z.of_nat m)
     = inr (ar ^ a * lens ^ l * mir ^ m))
  ∧ (∀ name inst_type kw log (ins : Instrument S) log',
       Instrument.__init__ name inst_type kw log = (inr ins, log') →
       ∃ t, Instrument._compute_transmission
              (ins_ar_coating ins) (ins_num_ar_coatings ins)
              (ins_lens_trans ins) (ins_num_lenses ins)
              (ins_mirror_refl ins) (ins_num_mirrors ins) = inr t
            ∧ ins_transmission ins = Instrument.flat_transmission t)
  ∧ Instrument._compute_transmission
      (dec 99 100) 2 (dec 9 10) 1 (dec 9925 10000) 0 = inr (dec 88209 100000)
  ∧ approx (dec 1 1000000000) (dec 88209 100000) (dec 88209 100000).
Proof.
  split; [apply compute_transmission_counts|].
  split.
  - intros ?????? (t & ? & Ht & _ & _ & _ & _ & _ & _ & Htr & _)%Instrument_init_inv.
    eauto.
  - split; [apply compute_transmission_default|by_decide].
Qed.

(** The default instrument of the small observatory stores the uniform
    spectrum of its own scalar. *)
Lemma internal_transmission_formula_witness :
  Instrument.__init__ (env := Lab.env) None "imager" Instrument.no_kwargs []
    = (inr Lab.default_instrument, [])
  ∧ ∃ t, Instrument._compute_transmission
           (ins_ar_coating Lab.default_instrument)
           (ins_num_ar_coatings Lab.default_instrument)
           (ins_lens_trans Lab.default_instrument)
           (ins_num_lenses Lab.default_instrument)
           (ins_mirror_refl Lab.default_instrument)
           (ins_num_mirrors Lab.default_instrument) = inr t
         ∧ ins_transmission Lab.default_instrument = Instrument.flat_transmission t.
Proof.
  split; [reflexivity|].
  apply (proj1 (proj2 (internal_transmission_formula (env := Lab.env)))
           None "imager" Instrument.no_kwargs [] Lab.default_instrument []).
  reflexivity.
Defined.

(** ** The detector table: percent or fraction *)

Lemma np_sum_div (k : Qc) (l : list Qc) :
  np_sum ((λ x, x / k) <$> l) = np_sum l / k.
Proof.
  induction l as [|x l IH]; [unfold Qcdiv; simpl; by rewrite Qcmult_0_l|].
  rewrite fmap_cons. change (np_sum (?y :: ?k)) with (y + np_sum k).
  rewrite IH. unfold Qcdiv. by rewrite Qcmult_plus_distr_l.
Qed.

Lemma np_mean_div (k : Qc) (l : list Qc) :
  np_mean ((λ x, x / k) <$> l) = np_mean l / k.
Proof.
  unfold np_mean. rewrite np_sum_div, length_fmap. unfold Qcdiv.
  rewrite <-!Qcmult_assoc. f_equal. apply Qcmult_comm.
Qed.

Lemma Qc_div_100_le_1 (x : Qc) : x / Qc_of_Z 100 ≤ 1 ↔ x ≤ Qc_of_Z 100.
Proof.
  assert (0 < / Qc_of_Z 100) as Hpos by by_decide.
  assert (Qc_of_Z 100 * / Qc_of_Z 100 = 1) as Hone by qc_eq.
  unfold Qcdiv. rewrite <-Hone at 1.
  symmetry. by apply Qcmult_le_mono_pos_r.
Qed.

Lemma Qc_div_100_pos (x : Qc) : 1 < x → 0 ≤ x / Qc_of_Z 100.
Proof.
  intros Hx. unfold Qcdiv.
  rewrite <-(Qcmult_0_l (/ Qc_of_Z 100)).
  apply Qcmult_le_compat_r; [|by_decide].
  apply Qclt_le_weak. by etrans; [|exact Hx].
Qed.

Section detector.
Context {S : Type} {ops : SpectrumOps S} {env : Env}.

Lemma init_ccd_file path log r :
  read_ascii_spec (Instrument.ccd_file path) nm THROUGHPUT = inr r →
  Instrument.init_ccd (S := S) (AStr path) log
  = (inr (CcdSpectrum
            (Empirical1D BaseUnitlessSpectrum (s_wavelengths r)
               (Instrument.percent_to_fraction (s_header r) (s_throughput r)).2
               (Some false)
               {| header := <["filename" := HStr path]>
                    (Instrument.percent_to_fraction (s_header r) (s_throughput r)).1;
                  expr := None |})),
     log ++ [Read_ascii_spec (Instrument.ccd_file path) nm THROUGHPUT]).
Proof.
  intros Hr. unfold Instrument.init_ccd, Instrument.ccd_file in *. cbv zeta.
  unfold io at 1. unfold mbind, M_bind. rewrite Hr.
  by destruct (Instrument.percent_to_fraction _ _).
Qed.
End detector.

(** C7, as stated, fails: a table in percent whose mean is above 100 (here
    the samples 150 and 250) is divided by 100 like any other, and its mean
    after the division, 2, is outside [[0,1]]. *)
Lemma overrange_detector_mean_above_one :
  ∃ tp : Quantity,
    Instrument.init_ccd (S := Tabulated.spectrum) (env := Lab.env)
      (AStr "qe_overrange.dat") []
    = (inr (CcdSpectrum
              (Tabulated.Table (s_wavelengths Lab.qe_overrange) tp false)),
       [Read_ascii_spec "etc/data/qe_overrange.dat" nm THROUGHPUT])
    ∧ 1 < np_mean (q_value (s_throughput Lab.qe_overrange))
    ∧ q_value tp = [dec 3 2; dec 5 2]
    ∧ np_mean (q_value tp) = 2
    ∧ ¬ (0 ≤ np_mean (q_value tp) ≤ 1).
Proof.
  eexists. split; [vm_compute; reflexivity|]. simpl.
  split; [by_decide|]. split; [f_equal; [qc_eq|f_equal; qc_eq]|].
  split; [qc_eq|]. intros [_ Hle]. revert Hle. by_decide.
Qed.

(** C7, amended: a detector table read from a file whose mean sample
    exceeds 1 has every sample divided by 100, so that its mean becomes the
    hundredth of the original mean (inside [[0,1]] exactly when the original
    mean is at most 100), and the header of the spectrum gets the note
    ['Divided by 100.0 to convert from percentage']; a table whose mean is
    at most 1 keeps its samples and gets no note. In both cases the reader
    is called once. *)
Theorem detector_rescaling {S : Type} {ops : SpectrumOps S} {env : Env}
    (path : string) (log : list io_event) (r : Spec) :
  read_ascii_spec (Instrument.ccd_file path) nm THROUGHPUT = inr r →
  ∃ (hdr : gmap string hval) (tp : Quantity),
    Instrument.init_ccd (S := S) (AStr path) log
    = (inr (CcdSpectrum
              (Empirical1D BaseUnitlessSpectrum (s_wavelengths r) tp (Some false)
                 {| header := hdr; expr := None |})),
       log ++ [Read_ascii_spec (Instrument.ccd_file path) nm THROUGHPUT])
    ∧ (1 < np_mean (q_value (s_throughput r)) →
         q_value tp = (λ x, x / Qc_of_Z 100) <$> q_value (s_throughput r)
         ∧ np_mean (q_value tp) = np_mean (q_value (s_throughput r)) / Qc_of_Z 100
         ∧ (0 ≤ np_mean (q_value tp) ≤ 1
            ↔ np_mean (q_value (s_throughput r)) ≤ Qc_of_Z 100)
         ∧ hdr !! "notes"
           = Some (HStr "Divided by 100.0 to convert from percentage"))
    ∧ (np_mean (q_value (s_throughput r)) ≤ 1 →
         tp = s_throughput r ∧ hdr !! "notes" = s_header r !! "notes").
Proof.
  intros Hr. eexists _, _. split; [by apply init_ccd_file|].
  unfold Instrument.percent_to_fraction.
  destruct (decide (1 < np_mean (q_value (s_throughput r)))) as [Hgt|Hle]; simpl.
  - split; [|by intros ?%Qcle_not_lt]. intros _.
    rewrite np_mean_div. split; [done|]. split; [done|]. split.
    + split.
      * intros [_ ?]. by apply Qc_div_100_le_1.
      * intros ?. split; [by apply Qc_div_100_pos|by apply Qc_div_100_le_1].
    + rewrite lookup_insert_ne by done. by rewrite lookup_insert_eq.
  - split; [done|]. intros _. split; [done|].
    by rewrite lookup_insert_ne.
Qed.

(** The detector table [qe_percent.dat] of the small observatory, samples 4
    and 8 of mean 6, is rescaled to mean 0.06. *)
Lemma detector_rescaling_witness :
  read_ascii_spec (Env := Lab.env) (Instrument.ccd_file (env := Lab.env) "qe_percent.dat")
    nm THROUGHPUT = inr Lab.qe_percent
  ∧ ∃ (hdr : gmap string hval) (tp : Quantity),
      Instrument.init_ccd (S := Tabulated.spectrum) (env := Lab.env)
        (AStr "qe_percent.dat") []
      = (inr (CcdSpectrum
                (Empirical1D BaseUnitlessSpectrum (s_wavelengths Lab.qe_percent)
                   tp (Some false) {| header := hdr; expr := None |})),
         [] ++ [Read_ascii_spec (Instrument.ccd_file (env := Lab.env) "qe_percent.dat") nm THROUGHPUT])
      ∧ (1 < np_mean (q_value (s_throughput Lab.qe_percent)) →
           q_value tp
           = (λ x, x / Qc_of_Z 100) <$> q_value (s_throughput Lab.qe_percent)
           ∧ np_mean (q_value tp)
             = np_mean (q_value (s_throughput Lab.qe_percent)) / Qc_of_Z 100
           ∧ (0 ≤ np_mean (q_value tp) ≤ 1
              ↔ np_mean (q_value (s_throughput Lab.qe_percent)) ≤ Qc_of_Z 100)
           ∧ hdr !! "notes"
             = Some (HStr "Divided by 100.0 to convert from percentage"))
      ∧ (np_mean (q_value (s_throughput Lab.qe_percent)) ≤ 1 →
           tp = s_throughput Lab.qe_percent
           ∧ hdr !! "notes" = s_header Lab.qe_percent !! "notes").
Proof.
  split; [reflexivity|].
  apply (detector_rescaling (S := Tabulated.spectrum) (env := Lab.env)
           "qe_percent.dat" [] Lab.qe_percent).
  reflexivity.
Defined.

(** ** The reflectivity of a telescope *)

Lemma foldl_iter {A B} (f : A → A) (a : A) (l : list B) :
  foldl (λ c _, f c) a l = Nat.iter (length l) f a.
Proof.
  revert a. induction l as [|x l IH]; intros a; [done|].
  simpl foldl. rewrite IH. simpl length. by rewrite Nat.iter_succ_r.
Qed.

Lemma max_of_constant {A} (f : A → Qc) (v : Qc) (l : list A) :
  l ≠ [] → (∀ x, x ∈ l → f x = v) →
  match f <$> l with
  | [] => inl ValueError
  | y :: ys => inr (foldl Qcmax y ys)
  end = (inr v : result Qc).
Proof.
  destruct l as [|x l]; [done|]. intros _ Hall. rewrite fmap_cons.
  rewrite (Hall x) by left. f_equal. apply foldl_Qcmax_const.
  apply Forall_fmap, Forall_forall. intros y ?. apply Hall. by right.
Qed.

Section telescope.
Context {S : Type} {ops : SpectrumOps S} {laws : SpectrumLaws S} {env : Env}.

Lemma Telescope_init_scalar name size area n kw r log :
  float (default (ANum (dec 91 100)) kw) = inr r →
  Telescope.__init__ (S := S) name size area n kw log
  = (inr (mkTelescope (default "Undefined" name) size area n
            (foldl (λ reflectivity _,
                      spectrum_mul reflectivity (Telescope.scalar_mirror r))
                   (Telescope.scalar_mirror r) (seqZ 0 (n - 1)))),
     log).
Proof.
  intros Hr. unfold Telescope.__init__. cbv zeta.
  unfold try_except, lift, mbind, M_bind. by rewrite Hr.
Qed.

Lemma waveset_scalar_mirror r :
  waveset (Telescope.scalar_mirror r) = angstroms arange_300_1501_nm.
Proof. apply waveset_table, arange_sorted. Qed.

Lemma call_scalar_mirror r x :
  x ∈ angstroms arange_300_1501_nm →
  spectrum_call (Telescope.scalar_mirror r) x = r.
Proof.
  intros (w & -> & Hw)%list_elem_of_fmap.
  apply list_elem_of_lookup in Hw as [i Hi].
  apply (call_sample _ arange_300_1501_nm _ _ i); auto using arange_sorted.
  apply lookup_replicate_2. by eapply lookup_lt_Some.
Qed.

(** [k] further multiplications by the mirror on the grid of the mirror
    raise the value to the power [k + 1]. *)
Lemma iterated_mirror r (k : nat) :
  waveset (Nat.iter k (λ c, spectrum_mul c (Telescope.scalar_mirror r))
                    (Telescope.scalar_mirror r))
  = angstroms arange_300_1501_nm
  ∧ ∀ x, x ∈ angstroms arange_300_1501_nm →
         spectrum_call
           (Nat.iter k (λ c, spectrum_mul c (Telescope.scalar_mirror r))
                     (Telescope.scalar_mirror r)) x
         = r ^ (1 + k)%nat.
Proof.
  induction k as [|k [IHw IHc]]; simpl Nat.iter.
  - split; [apply waveset_scalar_mirror|].
    intros x Hx. rewrite call_scalar_mirror by done.
    simpl. by rewrite Qcmult_1_r.
  - split.
    + rewrite waveset_mul; [done|]. by rewrite waveset_scalar_mirror.
    + intros x Hx. rewrite call_mul, IHc, call_scalar_mirror; try done.
      * change (r ^ (1 + (1 + k))%nat) with (r * r ^ (1 + k)%nat).
        apply Qcmult_comm.
      * by rewrite IHw.
      * by rewrite waveset_scalar_mirror.
Qed.
End telescope.

(** C5, as stated, fails for a telescope without mirrors: with
    [num_mirrors = 0] and a reflectivity of 0.9 the stored spectrum is the
    per-mirror spectrum itself, of value 0.9 (here at 500 nm), where the
    claim has [0.9 ^ 0 = 1]. *)
Lemma telescope_without_mirrors_keeps_one_mirror :
  Telescope.__init__ (S := Tabulated.spectrum) (env := Lab.env)
    None 0 0 0 (Some (ANum (dec 9 10))) [] = (inr Lab.refractor, [])
  ∧ spectrum_call (tel_reflectivity Lab.refractor)
      (to_angstrom (Some nm) (Qc_of_Z 500)) = dec 9 10
  ∧ dec 9 10 ^ Z.to_nat 0 = 1
  ∧ dec 9 10 ≠ 1.
Proof.
  split; [reflexivity|]. split; [qc_eq|]. split; [qc_eq|by_decide].
Qed.

(** Whatever the mirror count, the loop runs [n - 1] times when that is
    positive and not at all otherwise. *)
Lemma telescope_reflectivity_any_count
    {S : Type} {ops : SpectrumOps S} {laws : SpectrumLaws S} {env : Env}
    (name : option string) (size area : Qc) (n : Z) (kw : option arg)
    (r : Qc) (log : list io_event) :
  float (default (ANum (dec 91 100)) kw) = inr r →
  ∃ t : Telescope S,
    Telescope.__init__ name size area n kw log = (inr t, log)
    ∧ tel_reflectivity t
      = Nat.iter (Z.to_nat (n - 1))
          (λ c, spectrum_mul c (Telescope.scalar_mirror r))
          (Telescope.scalar_mirror r)
    ∧ (∀ k : Z, (300 ≤ k ≤ 1500)%Z →
         spectrum_call (tel_reflectivity t) (to_angstrom (Some nm) (Qc_of_Z k))
         = r ^ Z.to_nat (Z.max n 1))
    ∧ Telescope.tpeak t None = inr (r ^ Z.to_nat (Z.max n 1)).
Proof.
  intros Hr. eexists. split; [by apply Telescope_init_scalar|].
  cbn [tel_reflectivity]. rewrite foldl_iter, length_seqZ.
  destruct (iterated_mirror r (Z.to_nat (n - 1))) as [Hw Hc].
  replace (Z.to_nat (Z.max n 1)) with (1 + Z.to_nat (n - 1))%nat by lia.
  split; [done|]. split.
  - intros k Hk. apply Hc. apply list_elem_of_fmap.
    exists (Qc_of_Z k). split; [done|]. apply elem_of_arange. eauto.
  - unfold Telescope.tpeak, Spectrum._validate_wavelengths.
    cbn [tel_reflectivity]. rewrite Hw.
    change (match spectrum_call
                    (Nat.iter (Z.to_nat (n - 1))
                       (λ c, spectrum_mul c (Telescope.scalar_mirror r))
                       (Telescope.scalar_mirror r))
                  <$> angstroms arange_300_1501_nm with
            | [] => inl ValueError
            | y :: ys => inr (foldl Num.Qcmax y ys)
            end = inr (r ^ (1 + Z.to_nat (n - 1))%nat)).
    apply max_of_constant; [|done].
    intros E. apply (f_equal length) in E. unfold angstroms in E.
    rewrite length_fmap, arange_length in E. done.
Qed.

(** C5, amended: a telescope built from a scalar per-mirror reflectivity
    [r] (given, or the default 0.91) and a mirror count [n >= 1] stores the
    per-mirror spectrum multiplied by itself [n - 1] further times; its
    value is [r ^ n] at every wavelength of the grid from 300 to 1500 nm,
    and [r ^ n] is its peak throughput. *)
Theorem telescope_reflectivity_power
    {S : Type} {ops : SpectrumOps S} {laws : SpectrumLaws S} {env : Env}
    (name : option string) (size area : Qc) (n : Z) (kw : option arg)
    (r : Qc) (log : list io_event) :
  float (default (ANum (dec 91 100)) kw) = inr r →
  (1 ≤ n)%Z →
  ∃ t : Telescope S,
    Telescope.__init__ name size area n kw log = (inr t, log)
    ∧ tel_reflectivity t
      = Nat.iter (Z.to_nat (n - 1))
          (λ c, spectrum_mul c (Telescope.scalar_mirror r))
          (Telescope.scalar_mirror r)
    ∧ (∀ k : Z, (300 ≤ k ≤ 1500)%Z →
         spectrum_call (tel_reflectivity t) (to_angstrom (Some nm) (Qc_of_Z k))
         = r ^ Z.to_nat n)
    ∧ Telescope.tpeak t None = inr (r ^ Z.to_nat n).
Proof.
  intros Hr Hn.
  destruct (telescope_reflectivity_any_count name size area n kw r log Hr)
    as (t & Hinit & Hiter & Hcall & Hpeak).
  rewrite Z.max_l in Hcall, Hpeak by done. eauto.
Qed.

(** Three mirrors of reflectivity 0.9 in the table model. *)
Lemma telescope_reflectivity_power_witness :
  float (env := Lab.env) (default (ANum (dec 91 100)) (Some (ANum (dec 9 10))))
    = inr (dec 9 10)
  ∧ (1 ≤ 3)%Z
  ∧ ∃ t : Telescope Tabulated.spectrum,
      Telescope.__init__ (env := Lab.env) None 0 0 3 (Some (ANum (dec 9 10))) []
        = (inr t, [])
      ∧ tel_reflectivity t
        = Nat.iter (Z.to_nat (3 - 1))
            (λ c, spectrum_mul c (Telescope.scalar_mirror (dec 9 10)))
            (Telescope.scalar_mirror (dec 9 10))
      ∧ (∀ k : Z, (300 ≤ k ≤ 1500)%Z →
           spectrum_call (tel_reflectivity t) (to_angstrom (Some nm) (Qc_of_Z k))
           = dec 9 10 ^ Z.to_nat 3)
      ∧ Telescope.tpeak t None = inr (dec 9 10 ^ Z.to_nat 3).
Proof.
  split; [reflexivity|]. split; [lia|].
  apply (telescope_reflectivity_power (S := Tabulated.spectrum)
           (laws := TabulatedLaws.laws) (env := Lab.env)
           None 0 0 3 (Some (ANum (dec 9 10))) (dec 9 10) []);
    [reflexivity|lia].
Defined.

(** The value of the example: [0.9 ^ 3 = 0.729]. *)
Lemma three_mirrors_0_729 : dec 9 10 ^ Z.to_nat 3 = dec 729 1000.
Proof. qc_eq. Qed.

(** ** Resolution of a filter name *)




Section filters.
Context {S : Type} {ops : SpectrumOps S} {env : Env}.

Lemma mapping_z : Instrument.mapping !! "z" = Some (lco_zs_file Conf).
Proof. reflexivity. Qed.

Lemma mapping_zs : Instrument.mapping !! "zs" = Some (lco_zs_file Conf).
Proof. reflexivity. Qed.

Lemma set_bandpass_mapped filtername filename :
  Instrument.mapping !! Instrument.strip_p filtername = Some filename →
  Instrument.set_bandpass_from_filter (S := S) filtername
  = (r ← Instrument.read_filter filename;
     mret (Instrument.spectral_element filename (Instrument.strip_p filtername) r)).
Proof. unfold Instrument.set_bandpass_from_filter. cbv zeta. by intros ->. Qed.

Lemma set_bandpass_unmapped filtername log :
  Instrument.mapping !! Instrument.strip_p filtername = None →
  Instrument.set_bandpass_from_filter (S := S) filtername log
  = (inl (ETCError ("Filter name " +:+ Instrument.strip_p filtername
                      +:+ " is invalid.")), log).
Proof. unfold Instrument.set_bandpass_from_filter. cbv zeta. by intros ->. Qed.
End filters.



(** C10: the names ["z"] and ["zs"] are both mapped to the configuration
    item [lco_zs_file]; resolving either reads that one resource, and the
    two spectra, which differ in the [expr] entry of their metadata only,
    have the same wave set and the same value at every wavelength. *)
Theorem z_and_zs_share_resource
    {S : Type} {ops : SpectrumOps S} {laws : SpectrumLaws S} {env : Env}
    (log : list io_event) :
  Instrument.set_bandpass_from_filter "z" log
  = (r ← Instrument.read_filter (lco_zs_file Conf);
     mret (Instrument.spectral_element (S := S) (lco_zs_file Conf) "z" r)) log
  ∧ Instrument.set_bandpass_from_filter "zs" log
    = (r ← Instrument.read_filter (lco_zs_file Conf);
       mret (Instrument.spectral_element (S := S) (lco_zs_file Conf) "zs" r)) log
  ∧ ∀ (cz czs : S) (log1 log2 : list io_event),
      Instrument.set_bandpass_from_filter "z" log = (inr cz, log1) →
      Instrument.set_bandpass_from_filter "zs" log = (inr czs, log2) →
      log1 = log2
      ∧ waveset cz = waveset czs
      ∧ ∀ x : Qc, spectrum_call cz x = spectrum_call czs x.
Proof.
  rewrite (set_bandpass_mapped "z" _ mapping_z).
  rewrite (set_bandpass_mapped "zs" _ mapping_zs).
  split; [done|]. split; [done|].
  intros cz czs log1 log2.
  intros (r & l1 & Hr & [= <- <-])%bind_inr.
  intros (r' & l2 & Hr' & [= <- <-])%bind_inr.
  rewrite Hr in Hr'. injection Hr' as <- <-.
  split; [done|]. unfold Instrument.spectral_element. cbv zeta.
  split; [apply waveset_meta|]. intros x. apply call_meta.
Qed.

(** In the small observatory both names give the table of [zs.dat]. *)
Lemma z_and_zs_share_resource_witness :
  Instrument.set_bandpass_from_filter (env := Lab.env) "z" []
    = (inr Lab.zs_band, [Read_ascii_spec "etc/data/zs.dat" nm THROUGHPUT])
  ∧ Instrument.set_bandpass_from_filter (env := Lab.env) "zs" []
    = (inr Lab.zs_band, [Read_ascii_spec "etc/data/zs.dat" nm THROUGHPUT])
  ∧ [Read_ascii_spec "etc/data/zs.dat" nm THROUGHPUT]
    = [Read_ascii_spec "etc/data/zs.dat" nm THROUGHPUT]
  ∧ waveset Lab.zs_band = waveset Lab.zs_band
  ∧ ∀ x : Qc, spectrum_call Lab.zs_band x = spectrum_call Lab.zs_band x.
Proof.
  split; [reflexivity|]. split; [reflexivity|].
  apply (proj2 (proj2 (z_and_zs_share_resource (S := Tabulated.spectrum)
                         (laws := TabulatedLaws.laws) (env := Lab.env) []))
           Lab.zs_band Lab.zs_band); reflexivity.
Defined.

(** ** The transmission table of a site *)

Section site.
Context {S : Type} {ops : SpectrumOps S} {env : Env}.

(** A table in the primary dialect is read once. *)
Lemma Site_init_primary name altitude latitude longitude path log r :
  float_of_str path = None →
  read_spec (expandvars path) "lam" "trans" nm dimensionless_unscaled = inr r →
  Site.__init__ name altitude latitude longitude (Some (AStr path)) log
  = (inr (Site.of_table name altitude latitude longitude r),
     log ++ [Read_spec (expandvars path) "lam" "trans" nm dimensionless_unscaled]).
Proof.
  intros Hf Hr. unfold Site.__init__. cbv zeta.
  unfold try_except, lift, mbind, M_bind, io, float. by rewrite Hf, Hr.
Qed.

(** Any failure of the first read other than a missing column reaches the
    caller at once. *)
Lemma Site_init_other_error name altitude latitude longitude path log e :
  float_of_str path = None →
  read_spec (expandvars path) "lam" "trans" nm dimensionless_unscaled = inl e →
  is_KeyError e = false →
  Site.__init__ (S := S) name altitude latitude longitude (Some (AStr path)) log
  = (inl e,
     log ++ [Read_spec (expandvars path) "lam" "trans" nm dimensionless_unscaled]).
Proof.
  intros Hf Hr He. unfold Site.__init__. cbv zeta.
  unfold try_except, lift, mbind, M_bind, io, float. by rewrite Hf, Hr, He.
Qed.
End site.

(** C9, as stated, fails for a table whose missing column is not reported
    by [KeyError]: the text table [sky_text.dat] has the columns [lam] and
    [flux] and no column [trans], its reader raises [ValueError] for the
    missing column, and the constructor surfaces that error after the one
    primary read, with no read in the alternate dialect. *)
Lemma site_text_table_is_not_retried :
  Instrument.getitem "trans" Lab.sky_text = inl (KeyError "trans")
  ∧ Instrument.getitem "flux" Lab.sky_text
    = inr (mkColumn [dec 7 10; dec 9 10; dec 8 10] None)
  ∧ read_spec (Env := Lab.env_text) "sky_text.dat" "lam" "trans" nm
      dimensionless_unscaled = inl ValueError
  ∧ Site.__init__ (S := Tabulated.spectrum) (env := Lab.env_text)
      (Some "Paranal") None None None (Some (AStr "sky_text.dat")) []
    = (inl ValueError,
       [Read_spec "sky_text.dat" "lam" "trans" nm dimensionless_unscaled]).
Proof.
  split; [reflexivity|]. split; [reflexivity|]. split; reflexivity.
Qed.

(** C9, amended: when the transmission of a site is a file name (not a
    number), the table is read with the column [trans] and wavelengths in
    nm. If that read raises [KeyError], which is how a missing column has
    to be reported for the fallback to run, the table is read exactly once
    more, with the column [flux] and wavelengths in micron, and what that
    second read gives, a table or an error, is the outcome of the
    constructor. Any other error of the first read is the outcome at once,
    with no second read, and so is its table when it succeeds. *)
Theorem site_dialect_fallback {S : Type} {ops : SpectrumOps S} {env : Env}
    (name : option string) (altitude latitude longitude : option Qc)
    (path : string) (log : list io_event) :
  float_of_str path = None →
  Site.__init__ (S := S) name altitude latitude longitude (Some (AStr path)) log
  = match read_spec (expandvars path) "lam" "trans" nm dimensionless_unscaled with
    | inr r =>
        (inr (mkSite (default "Undefined" name) altitude latitude longitude
                (Some (Empirical1D BaseUnitlessSpectrum (s_wavelengths r)
                         (s_throughput r) (Some false)
                         {| header := s_header r; expr := None |}))),
         log ++ [Read_spec (expandvars path) "lam" "trans" nm
                   dimensionless_unscaled])
    | inl (KeyError _) =>
        (match read_spec (expandvars path) "lam" "flux" micron
                 dimensionless_unscaled with
         | inr r =>
             inr (mkSite (default "Undefined" name) altitude latitude longitude
                    (Some (Empirical1D BaseUnitlessSpectrum (s_wavelengths r)
                             (s_throughput r) (Some false)
                             {| header := s_header r; expr := None |})))
         | inl e => inl e
         end,
         log ++ [Read_spec (expandvars path) "lam" "trans" nm
                   dimensionless_unscaled;
                 Read_spec (expandvars path) "lam" "flux" micron
                   dimensionless_unscaled])
    | inl e =>
        (inl e,
         log ++ [Read_spec (expandvars path) "lam" "trans" nm
                   dimensionless_unscaled])
    end.
Proof.
  intros Hf.
  destruct (read_spec (expandvars path) "lam" "trans" nm dimensionless_unscaled)
    as [e|r] eqn:Hr.
  - destruct (is_KeyError e) eqn:He.
    + destruct e; try discriminate He.
      unfold Site.__init__. cbv zeta.
      unfold try_except, lift, mbind, M_bind, io, float. rewrite Hf, Hr. simpl.
      rewrite <-app_assoc. simpl.
      by destruct (read_spec _ "lam" "flux" micron dimensionless_unscaled).
    + rewrite (Site_init_other_error _ _ _ _ _ _ _ Hf Hr He).
      by destruct e.
  - by rewrite (Site_init_primary _ _ _ _ _ _ _ Hf Hr).
Qed.

(** The ESO table of the small observatory has no column [trans], and its
    reader says so with [KeyError]: it is read twice. *)
Lemma site_dialect_fallback_witness :
  float_of_str (Env := Lab.env) "sky_eso.dat" = None
  ∧ read_spec (Env := Lab.env) "sky_eso.dat" "lam" "trans" nm
      dimensionless_unscaled = inl (KeyError "trans")
  ∧ Site.__init__ (S := Tabulated.spectrum) (env := Lab.env)
      (Some "Paranal") None None None (Some (AStr "sky_eso.dat")) []
    = (inr (mkSite "Paranal" None None None
              (Some (Empirical1D BaseUnitlessSpectrum (s_wavelengths Lab.sky_eso)
                       (s_throughput Lab.sky_eso) (Some false)
                       {| header := s_header Lab.sky_eso; expr := None |}))),
       [Read_spec "sky_eso.dat" "lam" "trans" nm dimensionless_unscaled;
        Read_spec "sky_eso.dat" "lam" "flux" micron dimensionless_unscaled]).
Proof.
  split; [reflexivity|]. split; [reflexivity|].
  apply (site_dialect_fallback (S := Tabulated.spectrum) (env := Lab.env)
           (Some "Paranal") None None None "sky_eso.dat" []).
  reflexivity.
Defined.

(** ** The filter set and the total throughput *)

Lemma OrderedDict_get_set {V} (k k' : string) (v : V) (d : list (string * V)) :
  OrderedDict.get k (OrderedDict.set k' v d)
  = if decide (k = k') then Some v else OrderedDict.get k d.
Proof.
  induction d as [|[k0 v0] d IH]; simpl.
  - by destruct (decide (k = k')).
  - destruct (decide (k' = k0)) as [->|Hne]; simpl.
    + by destruct (decide (k = k0)).
    + rewrite IH. destruct (decide (k = k0)) as [->|]; [|done].
      by rewrite decide_False.
Qed.

Section throughput.
Context {S : Type} {ops : SpectrumOps S} {env : Env}.

Lemma for_each_filterset (l : list string) acc log fs log' :
  for_each l Instrument.filterset_step acc log = (inr fs, log') →
  (∀ k, is_Some (OrderedDict.get k fs)
        ↔ is_Some (OrderedDict.get k acc) ∨ k ∈ l)
  ∧ (Instrument.resolved acc → Instrument.resolved fs).
Proof.
  revert acc log. induction l as [|x l IH]; intros acc log.
  - intros [= <- <-]. split; [|done]. intros k.
    rewrite elem_of_nil. tauto.
  - change (for_each (x :: l) Instrument.filterset_step acc log)
      with ((Instrument.filterset_step acc x
             ≫= for_each l Instrument.filterset_step) log).
    intros (a' & log1 & Hbody & Hrest)%bind_inr.
    apply IH in Hrest as [Hkeys Hres]. unfold Instrument.filterset_step in Hbody.
    destruct (bool_decide (is_Some (OrderedDict.get x acc))) eqn:E.
    + injection Hbody as <- <-. apply bool_decide_eq_true in E.
      split; [|done]. intros k. rewrite Hkeys, elem_of_cons.
      split; [tauto|]. intros [?|[->|?]]; auto.
    + apply bind_inr in Hbody as (c & l2 & Hc & [= <- <-]).
      split.
      * intros k. rewrite Hkeys, OrderedDict_get_set, elem_of_cons.
        destruct (decide (k = x)) as [->|]; [|tauto].
        split; [auto|]. eauto.
      * intros Hacc. apply Hres. intros k c'.
        rewrite OrderedDict_get_set.
        destruct (decide (k = x)) as [->|]; [|apply Hacc].
        intros [= <-]. eauto.
Qed.

Lemma init_filterset_keys (l : list string) log fs log' :
  Instrument.init_filterset l log = (inr fs, log') →
  (∀ k, is_Some (OrderedDict.get k fs) ↔ k ∈ l) ∧ Instrument.resolved fs.
Proof.
  intros [Hkeys Hres]%for_each_filterset. split.
  - intros k. rewrite Hkeys. split; [|auto].
    by intros [[? [=]]|?].
  - apply Hres. by intros ?? [=].
Qed.

Lemma throughput_cases (ins : Instrument S) (t : string) :
  Instrument.throughput ins t
  = if bool_decide (t ∈ ins_filterlist ins)
    then match OrderedDict.get t (ins_filterset ins) with
         | Some f =>
             inr (match ins_ccd ins with
                  | CcdNum x =>
                      spectrum_scale (spectrum_mul f (ins_transmission ins)) x
                  | CcdSpectrum c =>
                      spectrum_mul (spectrum_mul f (ins_transmission ins)) c
                  end)
         | None => inl (ETCError ("Filter name " +:+ t +:+ " is invalid."))
         end
    else inl (ETCError ("Filter name " +:+ t +:+ " is invalid.")).
Proof.
  unfold Instrument.throughput.
  destruct (decide (t ∈ ins_filterlist ins)) as [Hin|Hnin].
  - rewrite (bool_decide_eq_false_2 (t ∉ _)) by auto.
    rewrite (bool_decide_eq_true_2 (t ∈ _)) by done. simpl.
    destruct (OrderedDict.get t (ins_filterset ins)) eqn:E.
    + rewrite bool_decide_eq_false_2 by done. by destruct (ins_ccd ins).
    + by rewrite bool_decide_eq_true_2.
  - rewrite (bool_decide_eq_true_2 (t ∉ _)) by done.
    by rewrite (bool_decide_eq_false_2 (t ∈ _)).
Qed.
End throughput.

(** C4: for an instrument that its constructor returned, the names in the
    filter set are the names of the filter list given at construction;
    [throughput] raises [ETCError] (the only error class of the module, with
    the message ['Filter name ... is invalid.']) exactly for the names that
    are not in the filter set, and raises nothing else; for a registered
    name it returns the product, taken from the left, of three factors: the
    stored filter spectrum, which is what resolving the name gave; the
    internal transmission, which is the flat spectrum on the grid from 300
    to 1500 nm of the value computed from the optical attributes; and the
    detector, which is the number given for it (0.9 when none is given) or
    the spectrum read from the file given for it. *)
Theorem throughput_of_registered_filter
    {S : Type} {ops : SpectrumOps S} {env : Env}
    (name : option string) (inst_type : string) (kw : Instrument.kwargs)
    (log : list io_event) (ins : Instrument S) (log' : list io_event) :
  Instrument.__init__ name inst_type kw log = (inr ins, log') →
  ∀ t : string,
    (is_Some (OrderedDict.get t (ins_filterset ins))
     ↔ t ∈ default [] (Instrument.filterlist kw))
    ∧ (Instrument.throughput ins t
         = inl (ETCError ("Filter name " +:+ t +:+ " is invalid."))
       ↔ OrderedDict.get t (ins_filterset ins) = None)
    ∧ (∀ e, Instrument.throughput ins t = inl e →
            e = ETCError ("Filter name " +:+ t +:+ " is invalid."))
    ∧ (∀ f, OrderedDict.get t (ins_filterset ins) = Some f →
            Instrument.throughput ins t
              = inr (match ins_ccd ins with
                     | CcdNum x =>
                         spectrum_scale (spectrum_mul f (ins_transmission ins)) x
                     | CcdSpectrum c =>
                         spectrum_mul (spectrum_mul f (ins_transmission ins)) c
                     end)
            ∧ (∃ l1 l2, Instrument.set_bandpass_from_filter t l1 = (inr f, l2))
            ∧ (∃ tr,
                 Instrument._compute_transmission
                   (default (dec 99 100) (Instrument.inst_ar_coating_refl kw))
                   (default 2%Z (Instrument.num_ar_coatings kw))
                   (default (dec 9 10) (Instrument.inst_lens_trans kw))
                   (default 1%Z (Instrument.num_inst_lenses kw))
                   (default (dec 9925 10000) (Instrument.inst_mirror_refl kw))
                   (default 0%Z (Instrument.num_inst_mirrors kw)) = inr tr
                 ∧ ins_transmission ins
                   = Empirical1D SpectralElement arange_300_1501_nm
                       (uniform arange_300_1501_nm tr) (Some true)
                       {| header := ∅; expr := None |})
            ∧ match default (ANum (dec 9 10)) (Instrument.ccd kw) with
              | ANum x => ins_ccd ins = CcdNum x
              | AStr path =>
                  ∃ r, read_ascii_spec (Instrument.ccd_file path) nm THROUGHPUT
                       = inr r
                       ∧ ins_ccd ins
                         = CcdSpectrum
                             (Empirical1D BaseUnitlessSpectrum (s_wavelengths r)
                                (Instrument.percent_to_fraction
                                   (s_header r) (s_throughput r)).2
                                (Some false)
                                {| header :=
                                     <["filename" := HStr path]>
                                       (Instrument.percent_to_fraction
                                          (s_header r) (s_throughput r)).1;
                                   expr := None |})
              end).
Proof.
  intros (tr & log1 & Htr & Har & Hna & Hlt & Hnl & Hmr & Hnm & Htrans
          & Hfl & Hfs & Hccd)%Instrument_init_inv t.
  apply init_filterset_keys in Hfs as [Hkeys Hres].
  rewrite <-Hfl. specialize (Hkeys t). rewrite throughput_cases.
  split; [done|].
  destruct (OrderedDict.get t (ins_filterset ins)) as [f|] eqn:E.
  - rewrite bool_decide_eq_true_2 by (apply Hkeys; eauto).
    split; [by split|]. split; [by intros ? [=]|].
    intros ? [= <-]. split; [done|]. split; [by apply Hres|]. split.
    + exists tr. by rewrite <-Har, <-Hna, <-Hlt, <-Hnl, <-Hmr, <-Hnm.
    + destruct (default (ANum (dec 9 10)) (Instrument.ccd kw)) as [x|path].
      * by injection Hccd as <- _.
      * destruct (read_ascii_spec (Instrument.ccd_file path) nm THROUGHPUT)
          as [e|r] eqn:Hr.
        -- exfalso. revert Hccd. unfold Instrument.init_ccd.
           fold (Instrument.ccd_file path). cbv zeta.
           unfold io at 1. unfold mbind, M_bind. by rewrite Hr.
        -- exists r. split; [done|].
           rewrite (init_ccd_file _ _ _ Hr) in Hccd. by injection Hccd as <- _.
  - split; [split; [done|]; by destruct (bool_decide _)|].
    split; [|by intros ? [=]].
    intros e. by destruct (bool_decide _); intros [= <-].
Qed.

(** The imager of the small observatory, built with the filter list
    [V, zp, V]: two reads, two entries, a detector of 0.9. *)
Lemma throughput_of_registered_filter_witness :
  Instrument.__init__ (env := Lab.env) None "imager" Lab.imager_filters []
    = (inr Lab.imager,
       [Read_ascii_spec "etc/data/V.dat" nm THROUGHPUT;
        Read_ascii_spec "etc/data/zs.dat" nm THROUGHPUT])
  ∧ ∀ t : string,
      (is_Some (OrderedDict.get t (ins_filterset Lab.imager))
       ↔ t ∈ default [] (Instrument.filterlist Lab.imager_filters))
      ∧ (Instrument.throughput Lab.imager t
           = inl (ETCError ("Filter name " +:+ t +:+ " is invalid."))
         ↔ OrderedDict.get t (ins_filterset Lab.imager) = None)
      ∧ (∀ e, Instrument.throughput Lab.imager t = inl e →
              e = ETCError ("Filter name " +:+ t +:+ " is invalid."))
      ∧ (∀ f, OrderedDict.get t (ins_filterset Lab.imager) = Some f →
              Instrument.throughput Lab.imager t
                = inr (match ins_ccd Lab.imager with
                       | CcdNum x =>
                           spectrum_scale
                             (spectrum_mul f (ins_transmission Lab.imager)) x
                       | CcdSpectrum c =>
                           spectrum_mul
                             (spectrum_mul f (ins_transmission Lab.imager)) c
                       end)
              ∧ (∃ l1 l2,
                   Instrument.set_bandpass_from_filter (env := Lab.env) t l1
                   = (inr f, l2))
              ∧ (∃ tr,
                   Instrument._compute_transmission
                     (default (dec 99 100)
                        (Instrument.inst_ar_coating_refl Lab.imager_filters))
                     (default 2%Z (Instrument.num_ar_coatings Lab.imager_filters))
                     (default (dec 9 10)
                        (Instrument.inst_lens_trans Lab.imager_filters))
                     (default 1%Z (Instrument.num_inst_lenses Lab.imager_filters))
                     (default (dec 9925 10000)
                        (Instrument.inst_mirror_refl Lab.imager_filters))
                     (default 0%Z (Instrument.num_inst_mirrors Lab.imager_filters))
                   = inr tr
                   ∧ ins_transmission Lab.imager
                     = Empirical1D SpectralElement arange_300_1501_nm
                         (uniform arange_300_1501_nm tr) (Some true)
                         {| header := ∅; expr := None |})
              ∧ ins_ccd Lab.imager = CcdNum (dec 9 10)).
Proof.
  split; [reflexivity|].
  apply (throughput_of_registered_filter (S := Tabulated.spectrum)
           (env := Lab.env) None "imager" Lab.imager_filters [] Lab.imager
           [Read_ascii_spec "etc/data/V.dat" nm THROUGHPUT;
            Read_ascii_spec "etc/data/zs.dat" nm THROUGHPUT]).
  reflexivity.
Defined.

(** On that imager: a registered name, an alias that was registered, and
    the base name of the alias, which was not. *)
Example imager_throughput :
  Instrument.throughput Lab.imager "V"
    = inr (Tabulated.Scale
             (Tabulated.Mul
                (Tabulated.Table (Lab.qty (Lab.nums [500; 600]) nm)
                   (Lab.qty [dec 8 10; dec 9 10] THROUGHPUT) false)
                (ins_transmission Lab.imager))
             (dec 9 10))
  ∧ is_Some (OrderedDict.get "zp" (ins_filterset Lab.imager))
  ∧ Instrument.throughput Lab.imager "z"
    = inl (ETCError "Filter name z is invalid.").
Proof. split; [reflexivity|]. split; [by eexists|reflexivity]. Qed.

(** ** The operators of the classes *)

Section operator_facts.
Context {S : Type} {ops : SpectrumOps S}.

(** Runs an operator on a store whose cells are described by hypotheses. *)
Local Ltac run_operator :=
  unfold py_mul, py_truediv, reflected_mul,
    Site.__mul__, Site.__rmul__, Site.__truediv__,
    Telescope.__mul__, Telescope.__rmul__, Telescope.__truediv__,
    get_heap, setattr, lift, raise, mbind, M_bind, mret, M_ret;
  repeat match goal with
         | H : ?h !! ?l = Some _ |- context [?h !! ?l] => rewrite H
         | H : site_transmission ?s = Some _ |- context [site_transmission ?s] =>
             rewrite H
         | |- _ => progress cbn beta iota
         end;
  try done.

(** [site * k] and [site / k] answer the site itself, whose stored
    transmission has been replaced. *)
Lemma Site_mul_number h l (s : Site S) T k :
  h !! l = Some (OSite s) → site_transmission s = Some T →
  py_mul (VRef l) (VNum k) h
  = (inr (VRef l),
     <[l := OSite (mkSite (site_name s) (site_altitude s) (site_latitude s)
                     (site_longitude s) (Some (spectrum_scale T k)))]> h).
Proof.
  intros Hl HT. run_operator.
Qed.

Lemma Site_truediv_number h l (s : Site S) T k :
  h !! l = Some (OSite s) → site_transmission s = Some T →
  py_truediv (VRef l) (VNum k) h
  = if decide (k = 0) then (inl ZeroDivisionError, h)
    else (inr (VRef l),
          <[l := OSite (mkSite (site_name s) (site_altitude s) (site_latitude s)
                          (site_longitude s) (Some (spectrum_unscale T k)))]> h).
Proof.
  intros Hl HT. run_operator. unfold Spectrum.__truediv__.
  by destruct (decide (k = 0)).
Qed.

Lemma Telescope_mul_number h l (t : Telescope S) k :
  h !! l = Some (OTelescope t) →
  py_mul (VRef l) (VNum k) h
  = (inr (VRef l),
     <[l := OTelescope (mkTelescope (tel_name t) (tel_size t) (tel_area t)
                          (tel_num_mirrors t)
                          (spectrum_scale (tel_reflectivity t) k))]> h).
Proof.
  intros Hl. run_operator.
Qed.

Lemma Telescope_truediv_number h l (t : Telescope S) k :
  h !! l = Some (OTelescope t) →
  py_truediv (VRef l) (VNum k) h
  = if decide (k = 0) then (inl ZeroDivisionError, h)
    else (inr (VRef l),
          <[l := OTelescope (mkTelescope (tel_name t) (tel_size t) (tel_area t)
                               (tel_num_mirrors t)
                               (spectrum_unscale (tel_reflectivity t) k))]> h).
Proof.
  intros Hl. run_operator. unfold Spectrum.__truediv__.
  by destruct (decide (k = 0)).
Qed.

(** [site * telescope] unwraps the reflectivity of the telescope ... *)
Lemma Site_mul_Telescope h l l' (s : Site S) T (t : Telescope S) :
  h !! l = Some (OSite s) → site_transmission s = Some T →
  h !! l' = Some (OTelescope t) →
  py_mul (VRef l) (VRef l') h
  = (inr (VRef l),
     <[l := OSite (mkSite (site_name s) (site_altitude s) (site_latitude s)
                     (site_longitude s)
                     (Some (spectrum_mul T (tel_reflectivity t))))]> h).
Proof.
  intros Hl HT Hl'. run_operator.
Qed.

(** ... but [telescope * x] hands any object [x] to the spectrum as it
    is, and the spectrum refuses it; the store is left as it was. *)
Lemma Telescope_mul_object h l l' (t : Telescope S) :
  h !! l = Some (OTelescope t) →
  py_mul (VRef l) (VRef l') h = (inl IncompatibleSources, h).
Proof.
  intros Hl. run_operator.
Qed.

(** A spectrum on the left refuses a site or a telescope on the right. *)
Lemma Spectrum_mul_object h (c : S) l' :
  py_mul (VSpectrum c) (VRef l') h = (inl IncompatibleSources, h).
Proof. done. Qed.
End operator_facts.

(** C2, the code at the failing input [site * 0.5], for a site of uniform
    transmission 0.9: the answer is the reference of the site, not a new
    spectrum, and the transmission the site stores is no longer the one it
    had: at 500 nm it was 0.9 and is 0.45 afterwards. The telescope in
    the next cell is untouched. *)
Theorem site_times_number_overwrites_site :
  ∃ (h' : gmap loc (obj Tabulated.spectrum)) (s' : Site Tabulated.spectrum)
    (T' : Tabulated.spectrum),
    py_mul (VRef Lab.site_ref) (VNum (dec 1 2)) Lab.store
      = (inr (VRef Lab.site_ref), h')
    ∧ h' !! Lab.site_ref = Some (OSite s')
    ∧ site_transmission s' = Some T'
    ∧ spectrum_call Lab.sky_09 (to_angstrom (Some nm) (Qc_of_Z 500)) = dec 9 10
    ∧ spectrum_call T' (to_angstrom (Some nm) (Qc_of_Z 500)) = dec 45 100
    ∧ h' !! Lab.telescope_ref = Lab.store !! Lab.telescope_ref.
Proof.
  eexists _, _, _. split.
  { apply (Site_mul_number Lab.store Lab.site_ref
             Lab.site Lab.sky_09); reflexivity. }
  split; [apply lookup_insert_eq|]. split; [reflexivity|].
  split; [qc_eq|]. split; [qc_eq|]. by rewrite lookup_insert_ne.
Qed.

(** C3, the code at the failing input: [site * telescope] succeeds, and
    overwrites the site, while [telescope * site] raises the error of the
    spectrum library. *)
Theorem telescope_times_site_raises :
  py_mul (VRef Lab.telescope_ref) (VRef Lab.site_ref) Lab.store
    = (inl IncompatibleSources, Lab.store)
  ∧ ∃ h', py_mul (VRef Lab.site_ref) (VRef Lab.telescope_ref)
            Lab.store = (inr (VRef Lab.site_ref), h').
Proof.
  split.
  - by apply (Telescope_mul_object Lab.store _ _ Lab.telescope).
  - eexists.
    by apply (Site_mul_Telescope Lab.store _ _
                Lab.site Lab.sky_09 Lab.telescope).
Qed.

(** * Further properties of the classes *)

(** ** Constructing a site *)

(** X1: a transmission that [float] accepts, a number or a numeric string,
    makes the site without any file being read: the stored spectrum is the
    uniform table of that value over the grid, negative values clamped. *)
Theorem Site_init_scalar {S : Type} {ops : SpectrumOps S} {env : Env}
    (name : option string) (altitude latitude longitude : option Qc)
    (kw : arg) (x : Qc) (log : list io_event) :
  float kw = inr x →
  Site.__init__ (S := S) name altitude latitude longitude (Some kw) log
  = (inr (mkSite (default "Undefined" name) altitude latitude longitude
            (Some (Empirical1D BaseUnitlessSpectrum arange_300_1501_nm
                     (uniform arange_300_1501_nm x) (Some false)
                     {| header := ∅; expr := None |}))),
     log).
Proof.
  intros Hx. unfold Site.__init__. cbv zeta.
  unfold try_except, lift, mbind, M_bind. by rewrite Hx.
Qed.

(** The string ['0.8'] is a number for the small observatory. *)
Lemma Site_init_scalar_witness :
  float (env := Lab.env) (AStr "0.8") = inr (dec 8 10)
  ∧ Site.__init__ (S := Tabulated.spectrum) (env := Lab.env)
      None None None None (Some (AStr "0.8")) []
    = (inr (mkSite (default "Undefined" None) None None None
              (Some (Empirical1D BaseUnitlessSpectrum arange_300_1501_nm
                       (uniform arange_300_1501_nm (dec 8 10)) (Some false)
                       {| header := ∅; expr := None |}))),
       []).
Proof.
  split; [reflexivity|].
  apply (Site_init_scalar (S := Tabulated.spectrum) (env := Lab.env)
           None None None None (AStr "0.8") (dec 8 10) []).
  reflexivity.
Defined.

(** X2: the first read decides alone whenever it does not raise
    [KeyError]: its table makes the site, any other error reaches the
    caller, and in both cases the file is read once, in the primary dialect
    only. *)
Theorem Site_init_no_fallback {S : Type} {ops : SpectrumOps S} {env : Env}
    (name : option string) (altitude latitude longitude : option Qc)
    (path : string) (log : list io_event) :
  float_of_str path = None →
  (∀ key, read_spec (expandvars path) "lam" "trans" nm dimensionless_unscaled
          ≠ inl (KeyError key)) →
  Site.__init__ (S := S) name altitude latitude longitude (Some (AStr path)) log
  = (match read_spec (expandvars path) "lam" "trans" nm dimensionless_unscaled with
     | inr r => inr (Site.of_table name altitude latitude longitude r)
     | inl e => inl e
     end,
     log ++ [Read_spec (expandvars path) "lam" "trans" nm dimensionless_unscaled]).
Proof.
  intros Hf Hk.
  destruct (read_spec (expandvars path) "lam" "trans" nm dimensionless_unscaled)
    as [e|r] eqn:Hr.
  - apply Site_init_other_error; [done..|]. destruct e; try done.
    by destruct (Hk key).
  - by apply Site_init_primary.
Qed.

(** A file that cannot be opened is not tried a second time. *)
Lemma Site_init_no_fallback_witness :
  float_of_str (Env := Lab.env) "missing.dat" = None
  ∧ (∀ key, read_spec (Env := Lab.env) (expandvars (Env := Lab.env) "missing.dat")
              "lam" "trans" nm dimensionless_unscaled ≠ inl (KeyError key))
  ∧ Site.__init__ (S := Tabulated.spectrum) (env := Lab.env)
      None None None None (Some (AStr "missing.dat")) []
    = (match read_spec (Env := Lab.env) (expandvars (Env := Lab.env) "missing.dat")
               "lam" "trans" nm dimensionless_unscaled with
       | inr r => inr (Site.of_table None None None None r)
       | inl e => inl e
       end,
       [] ++ [Read_spec (expandvars (Env := Lab.env) "missing.dat")
                "lam" "trans" nm dimensionless_unscaled]).
Proof.
  split; [reflexivity|]. split; [by intros key|].
  apply (Site_init_no_fallback (S := Tabulated.spectrum) (env := Lab.env)
           None None None None "missing.dat" []); [reflexivity|by intros key].
Defined.

(** ** What the operators do to the store *)

(** Unfolds an operator down to the matches it is made of. *)
Ltac unfold_operators :=
  repeat progress
    unfold py_mul, py_truediv, reflected_mul,
      Site.__rmul__, Site.__mul__, Site.__truediv__,
      Telescope.__rmul__, Telescope.__mul__, Telescope.__truediv__,
      Spectrum.__rmul__, Spectrum.__mul__, Spectrum.__truediv__,
      get_heap, setattr, lift, raise, mbind, M_bind, mret, M_ret in *.

(** Runs an operator on a store whose cells hypotheses describe. *)
Ltac run_store :=
  unfold_operators;
  repeat match goal with
         | H : ?h !! ?l = Some _ |- context [?h !! ?l] => rewrite H
         | H : site_transmission ?s = _ |- context [site_transmission ?s] =>
             rewrite H
         | |- _ => progress cbn beta iota
         end.

(** Splits every match of the goal and of the hypotheses. *)
Ltac split_operators :=
  unfold_operators; repeat (case_match; simplify_eq/=); try done.

Section operator_safety.
Context {S : Type} {ops : SpectrumOps S}.

Lemma py_mul_raise_keeps_store (a b : value S) h e h' :
  py_mul a b h = (inl e, h') → h' = h.
Proof. intros H. by split_operators. Qed.

Lemma py_truediv_raise_keeps_store (a b : value S) h e h' :
  py_truediv a b h = (inl e, h') → h' = h.
Proof. intros H. by split_operators. Qed.
End operator_safety.

(** X3: an operator that raises leaves every object as it was. *)
Theorem operators_raise_keep_store {S : Type} {ops : SpectrumOps S}
    (a b : value S) (h : gmap loc (obj S)) (e : exn) (h' : gmap loc (obj S)) :
  py_mul a b h = (inl e, h') ∨ py_truediv a b h = (inl e, h') → h' = h.
Proof.
  intros [H|H];
    [by eapply py_mul_raise_keeps_store|by eapply py_truediv_raise_keeps_store].
Qed.

(** [telescope * site] raises and the store of the small observatory is
    what it was. *)
Lemma operators_raise_keep_store_witness :
  (py_mul (VRef Lab.telescope_ref) (VRef Lab.site_ref) Lab.store
     = (inl IncompatibleSources, Lab.store)
   ∨ py_truediv (VRef Lab.telescope_ref) (VRef Lab.site_ref) Lab.store
     = (inl IncompatibleSources, Lab.store))
  ∧ Lab.store = Lab.store.
Proof.
  split; [left; reflexivity|].
  apply (operators_raise_keep_store (VRef Lab.telescope_ref)
           (VRef Lab.site_ref) Lab.store IncompatibleSources Lab.store).
  left. reflexivity.
Defined.

(** X4: an operator that succeeds on a site or a telescope never makes a
    new object: its result is one of its two operands, the only cell of the
    store that changes is the cell of that operand, and there only the
    stored spectrum changes; on numbers and spectra alone the store is
    untouched. *)
Theorem operators_answer_an_operand {S : Type} {ops : SpectrumOps S}
    (a b v : value S) (h h' : gmap loc (obj S)) :
  py_mul a b h = (inr v, h') ∨ py_truediv a b h = (inr v, h') →
  match v with
  | VRef l =>
      (a = VRef l ∨ b = VRef l)
      ∧ (∀ l', l' ≠ l → h' !! l' = h !! l')
      ∧ same_but_curve (h !! l) (h' !! l)
  | _ => h' = h
  end.
Proof.
  intros [H|H]; split_operators;
    (split; [by auto|]);
    (split; [by intros; rewrite lookup_insert_ne|]);
    unfold same_but_curve;
    repeat match goal with
           | H : ?h !! ?l = Some _ |- context [?h !! ?l] => rewrite H
           end;
    rewrite lookup_insert_eq; simpl; eauto 10.
Qed.

(** [site * telescope] in the small observatory answers the site. *)
Lemma operators_answer_an_operand_witness :
  (py_mul (VRef Lab.site_ref) (VRef Lab.telescope_ref) Lab.store
     = (inr (VRef Lab.site_ref), Lab.store_after_product)
   ∨ py_truediv (VRef Lab.site_ref) (VRef Lab.telescope_ref) Lab.store
     = (inr (VRef Lab.site_ref), Lab.store_after_product))
  ∧ (VRef (S := Tabulated.spectrum) Lab.site_ref = VRef Lab.site_ref
     ∨ VRef (S := Tabulated.spectrum) Lab.telescope_ref = VRef Lab.site_ref)
  ∧ (∀ l', l' ≠ Lab.site_ref →
           Lab.store_after_product !! l' = Lab.store !! l')
  ∧ same_but_curve (Lab.store !! Lab.site_ref)
      (Lab.store_after_product !! Lab.site_ref).
Proof.
  assert (py_mul (VRef Lab.site_ref) (VRef Lab.telescope_ref) Lab.store
          = (inr (VRef Lab.site_ref), Lab.store_after_product)) as Hrun.
  { exact (Site_mul_Telescope Lab.store Lab.site_ref Lab.telescope_ref
             Lab.site Lab.sky_09 Lab.telescope eq_refl eq_refl eq_refl). }
  split; [by left|].
  apply (operators_answer_an_operand (VRef Lab.site_ref)
           (VRef Lab.telescope_ref) (VRef Lab.site_ref) Lab.store
           Lab.store_after_product).
  by left.
Defined.

Lemma py_mul_number_comm {S : Type} {ops : SpectrumOps S}
    (k : Qc) (b : value S) (h : gmap loc (obj S)) :
  py_mul (VNum k) b h = py_mul b (VNum k) h.
Proof.
  destruct b as [y|c|l]; unfold_operators; [|done|].
  - by rewrite Qcmult_comm.
  - by repeat case_match.
Qed.

(** X5: a number commutes with every operand: [k * b] and [b * k] give the
    same answer and the same store, whether [b] is a number, a spectrum, a
    site, a telescope (both reach [__rmul__], which is [__mul__]) or an
    instrument (both raise [TypeError]). *)
Theorem number_times_commutes {S : Type} {ops : SpectrumOps S}
    (k : Qc) (b : value S) (h : gmap loc (obj S)) :
  py_mul (VNum k) b h = py_mul b (VNum k) h.
Proof. apply py_mul_number_comm. Qed.

(** X6: an instrument, which has no [__mul__] of its own, commutes with
    every operand as well: the reflected method of the other operand does
    the work, so [instrument * site] is [site * instrument] and overwrites
    the site, and with any other operand both orders raise the same
    error. *)
Theorem instrument_times_commutes {S : Type} {ops : SpectrumOps S}
    (li : loc) (i : Instrument S) (b : value S) (h : gmap loc (obj S)) :
  h !! li = Some (OInstrument i) →
  py_mul (VRef li) b h = py_mul b (VRef li) h.
Proof.
  intros Hi. destruct b as [y|c|l]; unfold_operators.
  - by rewrite Hi.
  - by rewrite Hi.
  - destruct (decide (l = li)) as [->|Hne]; [done|].
    rewrite Hi. by repeat case_match.
Qed.

(** The default instrument and the site of the small observatory. *)
Lemma instrument_times_commutes_witness :
  Lab.observatory !! Lab.instrument_ref = Some (OInstrument Lab.default_instrument)
  ∧ py_mul (VRef Lab.instrument_ref) (VRef Lab.site_ref) Lab.observatory
    = py_mul (VRef Lab.site_ref) (VRef Lab.instrument_ref) Lab.observatory.
Proof.
  split; [reflexivity|].
  apply (instrument_times_commutes Lab.instrument_ref Lab.default_instrument
           (VRef Lab.site_ref) Lab.observatory).
  reflexivity.
Defined.

(** X7: a site, a telescope or an instrument is never accepted as a
    divisor: whatever stands on the left, the division raises and the store
    is unchanged ([__truediv__] does not unwrap its operand as
    [Site.__mul__] does, and there is no reflected division). *)
Theorem component_is_no_divisor {S : Type} {ops : SpectrumOps S}
    (a : value S) (l : loc) (h : gmap loc (obj S)) :
  ∃ e, py_truediv a (VRef l) h = (inl e, h).
Proof. split_operators; eauto. Qed.

(** X8: a site built without the keyword [transmission] has no such
    attribute, and every product or quotient with it on the left raises
    [AttributeError], as does a product with a number on its left. *)
Theorem bare_site_has_no_transmission {S : Type} {ops : SpectrumOps S}
    (l : loc) (s : Site S) (b : value S) (k : Qc) (h : gmap loc (obj S)) :
  h !! l = Some (OSite s) → site_transmission s = None →
  py_mul (VRef l) b h = (inl (AttributeError "transmission"), h)
  ∧ py_truediv (VRef l) b h = (inl (AttributeError "transmission"), h)
  ∧ py_mul (VNum k) (VRef l) h = (inl (AttributeError "transmission"), h).
Proof.
  intros Hl Hs. rewrite py_mul_number_comm. by run_store.
Qed.

(** [Site(name='Bare') * 2] in the small observatory. *)
Lemma bare_site_has_no_transmission_witness :
  Lab.observatory !! Lab.bare_ref = Some (OSite Lab.bare_site)
  ∧ site_transmission Lab.bare_site = None
  ∧ py_mul (VRef Lab.bare_ref) (VNum 2) Lab.observatory
    = (inl (AttributeError "transmission"), Lab.observatory)
  ∧ py_truediv (VRef Lab.bare_ref) (VNum 2) Lab.observatory
    = (inl (AttributeError "transmission"), Lab.observatory)
  ∧ py_mul (VNum 2) (VRef Lab.bare_ref) Lab.observatory
    = (inl (AttributeError "transmission"), Lab.observatory).
Proof.
  split; [reflexivity|]. split; [reflexivity|].
  apply (bare_site_has_no_transmission Lab.bare_ref Lab.bare_site (VNum 2) 2
           Lab.observatory); reflexivity.
Defined.

(** X9: products accumulate in the left operand: evaluating
    [site * telescope] twice leaves the site with its transmission
    multiplied twice by the reflectivity, while the telescope keeps its
    own. *)
Theorem repeated_product_accumulates {S : Type} {ops : SpectrumOps S}
    (l l' : loc) (s : Site S) (T : S) (t : Telescope S) (h : gmap loc (obj S)) :
  h !! l = Some (OSite s) → site_transmission s = Some T →
  h !! l' = Some (OTelescope t) →
  (py_mul (VRef l) (VRef l') ≫= λ _, py_mul (VRef l) (VRef l')) h
  = (inr (VRef l),
     <[l := OSite (mkSite (site_name s) (site_altitude s) (site_latitude s)
                     (site_longitude s)
                     (Some (spectrum_mul (spectrum_mul T (tel_reflectivity t))
                              (tel_reflectivity t))))]> h).
Proof.
  intros Hl HT Hl'.
  assert (l ≠ l') as Hne by (intros ->; congruence).
  unfold mbind at 1, M_bind at 1.
  rewrite (Site_mul_Telescope h l l' s T t) by done.
  erewrite Site_mul_Telescope;
    [|apply lookup_insert_eq|done|by rewrite lookup_insert_ne].
  by rewrite insert_insert_eq.
Qed.

(** Twice [site * telescope] in the small observatory. *)
Lemma repeated_product_accumulates_witness :
  Lab.store !! Lab.site_ref = Some (OSite Lab.site)
  ∧ site_transmission Lab.site = Some Lab.sky_09
  ∧ Lab.store !! Lab.telescope_ref = Some (OTelescope Lab.telescope)
  ∧ (py_mul (VRef Lab.site_ref) (VRef Lab.telescope_ref)
     ≫= λ _, py_mul (VRef Lab.site_ref) (VRef Lab.telescope_ref)) Lab.store
    = (inr (VRef Lab.site_ref),
       <[Lab.site_ref :=
           OSite (mkSite (site_name Lab.site) (site_altitude Lab.site)
                    (site_latitude Lab.site) (site_longitude Lab.site)
                    (Some (spectrum_mul
                             (spectrum_mul Lab.sky_09
                                (tel_reflectivity Lab.telescope))
                             (tel_reflectivity Lab.telescope))))]> Lab.store).
Proof.
  split; [reflexivity|]. split; [reflexivity|]. split; [reflexivity|].
  apply (repeated_product_accumulates Lab.site_ref Lab.telescope_ref
           Lab.site Lab.sky_09 Lab.telescope Lab.store); reflexivity.
Defined.

(** ** Constructing a telescope, and its peak *)

Section telescope_facts.
Context {S : Type} {ops : SpectrumOps S} {env : Env}.

Lemma Qcmax_le_l (x y : Qc) : x ≤ Qcmax x y.
Proof.
  unfold Qcmax. case_decide; [done|]. apply Qcle_refl.
Qed.

Lemma Qcmax_le_r (x y : Qc) : y ≤ Qcmax x y.
Proof.
  unfold Qcmax. case_decide; [apply Qcle_refl|].
  by apply Qclt_le_weak, Qcnot_le_lt.
Qed.

Lemma Qcmax_cases (x y : Qc) : Qcmax x y = x ∨ Qcmax x y = y.
Proof. unfold Qcmax. case_decide; auto. Qed.

Lemma foldl_Qcmax_spec (y : Qc) (ys : list Qc) :
  (∀ x, x ∈ y :: ys → x ≤ foldl Qcmax y ys) ∧ foldl Qcmax y ys ∈ y :: ys.
Proof.
  revert y. induction ys as [|z ys IH]; intros y; simpl.
  - split; [|left]. intros x ->%list_elem_of_singleton. apply Qcle_refl.
  - destruct (IH (Qcmax y z)) as [Hle Hin]. split.
    + intros x [->|[->|Hx]%elem_of_cons]%elem_of_cons.
      * etrans; [apply (Qcmax_le_l _ z)|]. apply Hle. left.
      * etrans; [apply (Qcmax_le_r y)|]. apply Hle. left.
      * apply Hle. by right.
    + apply elem_of_cons in Hin as [Hin|Hin].
      * rewrite Hin. destruct (Qcmax_cases y z) as [->| ->];
          [left|right; left].
      * right. by right.
Qed.
End telescope_facts.

(** X10: a reflectivity that is not a number is a file name: the file
    itself when it exists, else the file of that name in the package data;
    it is read once, as wavelengths in nm and values in percent, and the
    telescope is made of its table, or its error reaches the caller. *)
Theorem Telescope_init_file {S : Type} {ops : SpectrumOps S} {env : Env}
    (name : option string) (size area : Qc) (n : Z) (path : string)
    (log : list io_event) :
  float_of_str path = None →
  Telescope.__init__ (S := S) name size area n (Some (AStr path)) log
  = (match read_ascii_spec (Instrument.ccd_file path) nm percent with
     | inr r => inr (Telescope.of_table name size area n r)
     | inl e => inl e
     end,
     log ++ [Read_ascii_spec (Instrument.ccd_file path) nm percent]).
Proof.
  intros Hf. unfold Telescope.__init__, Instrument.ccd_file. cbv zeta.
  unfold try_except, lift, mbind, M_bind, io, float. simpl. rewrite Hf.
  destruct (read_ascii_spec _ nm percent) as [e|r]; [done|].
  unfold Telescope.of_table. cbv zeta. simpl.
  by rewrite foldl_iter, length_seqZ.
Qed.

(** No file [mirror.dat] in the small observatory, here or in the package
    data. *)
Lemma Telescope_init_file_witness :
  float_of_str (Env := Lab.env) "mirror.dat" = None
  ∧ Telescope.__init__ (S := Tabulated.spectrum) (env := Lab.env)
      None 0 0 2 (Some (AStr "mirror.dat")) []
    = (match read_ascii_spec (Env := Lab.env)
               (Instrument.ccd_file (env := Lab.env) "mirror.dat") nm percent with
       | inr r => inr (Telescope.of_table None 0 0 2 r)
       | inl e => inl e
       end,
       [] ++ [Read_ascii_spec (Instrument.ccd_file (env := Lab.env) "mirror.dat")
                nm percent]).
Proof.
  split; [reflexivity|].
  apply (Telescope_init_file (S := Tabulated.spectrum) (env := Lab.env)
           None 0 0 2 "mirror.dat" []).
  reflexivity.
Defined.

(** X11: a mirror count of one or less, zero and negative counts included,
    gives the telescope of one mirror: the same reads, the same error if
    any, and the same reflectivity; only the recorded count differs. *)
Theorem Telescope_init_few_mirrors {S : Type} {ops : SpectrumOps S} {env : Env}
    (name : option string) (size area : Qc) (n : Z) (kw : option arg)
    (log : list io_event) :
  (n ≤ 1)%Z →
  Telescope.__init__ (S := S) name size area n kw log
  = match Telescope.__init__ name size area 1 kw log with
    | (inr t, log') =>
        (inr (mkTelescope (tel_name t) (tel_size t) (tel_area t) n
                (tel_reflectivity t)), log')
    | (inl e, log') => (inl e, log')
    end.
Proof.
  intros Hn. unfold Telescope.__init__. cbv zeta.
  unfold mbind, M_bind.
  destruct (try_except _ _ _ log) as [[e|[[hd w] r]] log']; [done|].
  simpl. by rewrite seqZ_nil by lia.
Qed.

(** [Telescope(num_mirrors=-2, reflectivity=0.9)]. *)
Lemma Telescope_init_few_mirrors_witness :
  (-2 ≤ 1)%Z
  ∧ Telescope.__init__ (S := Tabulated.spectrum) (env := Lab.env)
      None 0 0 (-2) (Some (ANum (dec 9 10))) []
    = match Telescope.__init__ (env := Lab.env) None 0 0 1
              (Some (ANum (dec 9 10))) [] with
      | (inr t, log') =>
          (inr (mkTelescope (tel_name t) (tel_size t) (tel_area t) (-2)
                  (tel_reflectivity t)), log')
      | (inl e, log') => (inl e, log')
      end.
Proof.
  split; [lia|].
  apply (Telescope_init_few_mirrors (S := Tabulated.spectrum) (env := Lab.env)
           None 0 0 (-2) (Some (ANum (dec 9 10))) []).
  lia.
Defined.

Lemma max_of_samples {A} (f : A → Qc) (x : list A) (p : Qc) :
  match f <$> x with
  | [] => inl ValueError
  | y :: ys => inr (foldl Qcmax y ys)
  end = (inr p : result Qc) →
  (∃ w, w ∈ x ∧ f w = p) ∧ ∀ w, w ∈ x → f w ≤ p.
Proof.
  destruct x as [|w0 ws]; simpl; [done|]. intros [= <-].
  destruct (foldl_Qcmax_spec (f w0) (f <$> ws)) as [Hle Hin].
  split.
  - rewrite <-fmap_cons in Hin.
    apply list_elem_of_fmap in Hin as (w & Hp & Hw).
    exists w. split; [done|]. exact (eq_sym Hp).
  - intros w Hw. apply (Hle (f w)).
    rewrite <-fmap_cons. by apply list_elem_of_fmap_2.
Qed.

(** X12: [tpeak] samples the wave set of the reflectivity when no
    wavelengths are given, and the given wavelengths otherwise, once the
    spectrum library has checked them: a wavelength that is zero or negative
    raises [ZeroWavelength]; positive wavelengths in neither ascending nor
    descending order raise [UnsortedWavelength]; positive, ordered
    wavelengths with a repeated value raise [DuplicateWavelength]. A peak
    that is returned is the value of the reflectivity at one of the sampled
    wavelengths, no sampled value exceeds it, and wavelengths that were
    given are then positive, ordered and pairwise different. *)
Theorem tpeak_is_the_maximum {S : Type} {ops : SpectrumOps S}
    (t : Telescope S) (wavelengths : option (list Qc)) :
  let x := default (waveset (tel_reflectivity t)) wavelengths in
  (∀ p, Telescope.tpeak t wavelengths = inr p →
        (∃ w, w ∈ x ∧ spectrum_call (tel_reflectivity t) w = p)
        ∧ (∀ w, w ∈ x → spectrum_call (tel_reflectivity t) w ≤ p)
        ∧ (wavelengths = Some x →
           Forall (λ w, 0 < w) x ∧ NoDup x
           ∧ (Sorted Qcle x ∨ Sorted (λ a b, b ≤ a) x)))
  ∧ (∀ w, wavelengths = Some x → w ∈ x → w ≤ 0 →
          Telescope.tpeak t wavelengths = inl ZeroWavelength)
  ∧ (wavelengths = Some x → Forall (λ w, 0 < w) x →
     ¬ (Sorted Qcle x ∨ Sorted (λ a b, b ≤ a) x) →
     Telescope.tpeak t wavelengths = inl UnsortedWavelength)
  ∧ (wavelengths = Some x → Forall (λ w, 0 < w) x →
     Sorted Qcle x ∨ Sorted (λ a b, b ≤ a) x → ¬ NoDup x →
     Telescope.tpeak t wavelengths = inl DuplicateWavelength).
Proof.
  intros x. unfold Telescope.tpeak, Spectrum._validate_wavelengths,
    Spectrum.validate_wavelengths.
  assert (∀ l : list Qc, Forall (λ w, 0 < w) l ↔ ¬ Exists (λ w, w ≤ 0) l)
    as Hpos.
  { intros l. rewrite <-Forall_Exists_neg. apply Forall_proper; [|done].
    intros w. split; [apply Qclt_not_le|apply Qcnot_le_lt]. }
  destruct wavelengths as [ws|]; simpl in x; subst x.
  - split; [|split; [|split]].
    + intros p Hp. repeat case_decide; try done.
      apply max_of_samples in Hp as [Hin Hle].
      split; [done|]. split; [done|]. intros _. by rewrite Hpos.
    + intros w _ Hw Hle. rewrite decide_True; [done|].
      apply Exists_exists. eauto.
    + intros _ Hall Hns. rewrite Hpos in Hall.
      by rewrite decide_False, decide_False.
    + intros _ Hall Hs Hdup. rewrite Hpos in Hall.
      by rewrite decide_False, decide_True, decide_False.
  - split; [|by repeat split].
    intros p Hp. apply max_of_samples in Hp as [Hin Hle]. by repeat split.
Qed.

(** The peak of the one-mirror telescope of the small observatory over two
    wavelengths, and the same wavelengths with a zero before them. *)
Lemma tpeak_is_the_maximum_witness :
  Telescope.tpeak Lab.telescope (Some [Qc_of_Z 5000; Qc_of_Z 6000])
    = inr (dec 8 10)
  ∧ (∃ w, w ∈ [Qc_of_Z 5000; Qc_of_Z 6000]
          ∧ spectrum_call (tel_reflectivity Lab.telescope) w = dec 8 10)
  ∧ (∀ w, w ∈ [Qc_of_Z 5000; Qc_of_Z 6000] →
          spectrum_call (tel_reflectivity Lab.telescope) w ≤ dec 8 10)
  ∧ Telescope.tpeak Lab.telescope (Some [0; Qc_of_Z 5000; Qc_of_Z 6000])
    = inl ZeroWavelength.
Proof.
  assert (Telescope.tpeak Lab.telescope (Some [Qc_of_Z 5000; Qc_of_Z 6000])
          = inr (dec 8 10)) as Hp.
  { unfold Telescope.tpeak.
    replace (Spectrum._validate_wavelengths (tel_reflectivity Lab.telescope)
               (Some [Qc_of_Z 5000; Qc_of_Z 6000]))
      with (inr [Qc_of_Z 5000; Qc_of_Z 6000] : result (list Qc))
      by (vm_compute; reflexivity).
    simpl. f_equal; try qc_eq. }
  split; [exact Hp|].
  destruct (proj1 (tpeak_is_the_maximum Lab.telescope
                     (Some [Qc_of_Z 5000; Qc_of_Z 6000])) (dec 8 10) Hp)
    as (Hin & Hle & _).
  split; [exact Hin|]. split; [exact Hle|].
  apply (proj1 (proj2 (tpeak_is_the_maximum Lab.telescope
                         (Some [0; Qc_of_Z 5000; Qc_of_Z 6000]))) 0);
    [reflexivity|left|done].
Defined.

Lemma py_pow_cases (x : Qc) (n : Z) :
  (py_pow x n = inl ZeroDivisionError ∧ x = 0 ∧ (n < 0)%Z)
  ∨ (∃ y, py_pow x n = inr y ∧ ¬ (x = 0 ∧ (n < 0)%Z)).
Proof.
  destruct n as [|p|p]; simpl.
  - right. eexists. split; [done|]. intros [_ ?]. lia.
  - right. eexists. split; [done|]. intros [_ ?]. lia.
  - destruct (decide (x = 0)) as [->|Hx].
    + left. auto with lia.
    + right. eexists. split; [done|]. tauto.
Qed.

(** X13: a [ZeroDivisionError] of [_compute_transmission] has one cause
    only, an efficiency that is zero with a negative count; and the first
    power taken, that of the coating efficiency, raises it whenever that
    efficiency is zero and its count negative, whatever the other
    attributes are. *)
Theorem compute_transmission_error
    (ar lens mir : Qc) (a l m : Z) :
  (Instrument._compute_transmission ar a lens l mir m = inl ZeroDivisionError →
   (ar = 0 ∧ (a < 0)%Z) ∨ (lens = 0 ∧ (l < 0)%Z) ∨ (mir = 0 ∧ (m < 0)%Z))
  ∧ (ar = 0 → (a < 0)%Z →
     Instrument._compute_transmission ar a lens l mir m = inl ZeroDivisionError).
Proof.
  unfold Instrument._compute_transmission. split.
  - destruct (py_pow_cases ar a) as [(-> & ?)|(x & -> & ?)]; [auto|].
    destruct (py_pow_cases lens l) as [(-> & ?)|(y & -> & ?)]; [auto|].
    destruct (py_pow_cases mir m) as [(-> & ?)|(z & -> & ?)]; [auto|].
    done.
  - intros -> Ha.
    by destruct (py_pow_cases 0 a) as [(-> & ?)|(x & _ & []) ].
Qed.

(** X14: when the transmission cannot be computed the constructor of the
    instrument raises that error before any file is read, whatever the
    filter list and the detector are. *)
Theorem Instrument_init_transmission_error
    {S : Type} {ops : SpectrumOps S} {env : Env}
    (name : option string) (inst_type : string) (kw : Instrument.kwargs)
    (log : list io_event) (e : exn) :
  Instrument._compute_transmission
    (default (dec 99 100) (Instrument.inst_ar_coating_refl kw))
    (default 2%Z (Instrument.num_ar_coatings kw))
    (default (dec 9 10) (Instrument.inst_lens_trans kw))
    (default 1%Z (Instrument.num_inst_lenses kw))
    (default (dec 9925 10000) (Instrument.inst_mirror_refl kw))
    (default 0%Z (Instrument.num_inst_mirrors kw)) = inl e →
  Instrument.__init__ (S := S) name inst_type kw log = (inl e, log).
Proof.
  intros He. unfold Instrument.__init__. cbv zeta.
  unfold lift, mbind at 1, M_bind at 1. by rewrite He.
Qed.

(** A coating of efficiency zero counted minus once. *)
Lemma Instrument_init_transmission_error_witness :
  Instrument._compute_transmission
    (default (dec 99 100) (Instrument.inst_ar_coating_refl Lab.broken_coating))
    (default 2%Z (Instrument.num_ar_coatings Lab.broken_coating))
    (default (dec 9 10) (Instrument.inst_lens_trans Lab.broken_coating))
    (default 1%Z (Instrument.num_inst_lenses Lab.broken_coating))
    (default (dec 9925 10000) (Instrument.inst_mirror_refl Lab.broken_coating))
    (default 0%Z (Instrument.num_inst_mirrors Lab.broken_coating))
    = inl ZeroDivisionError
  ∧ Instrument.__init__ (S := Tabulated.spectrum) (env := Lab.env)
      None "imager" Lab.broken_coating [] = (inl ZeroDivisionError, []).
Proof.
  split; [reflexivity|].
  apply (Instrument_init_transmission_error (S := Tabulated.spectrum)
           (env := Lab.env) None "imager" Lab.broken_coating []
           ZeroDivisionError).
  reflexivity.
Defined.

Lemma Qc_unit_mult (x y : Qc) : 0 ≤ x ≤ 1 → 0 ≤ y ≤ 1 → 0 ≤ x * y ≤ 1.
Proof.
  intros [Hx0 Hx1] [Hy0 Hy1]. split.
  - rewrite <-(Qcmult_0_l y). by apply Qcmult_le_compat_r.
  - etrans; [apply (Qcmult_le_compat_r x 1 y); done|]. by rewrite Qcmult_1_l.
Qed.

Lemma Qc_unit_power (x : Qc) (n : nat) : 0 ≤ x ≤ 1 → 0 ≤ x ^ n ≤ 1.
Proof.
  intros Hx. induction n as [|n IH]; [by_decide|].
  change (x ^ Datatypes.S n) with (x * x ^ n). by apply Qc_unit_mult.
Qed.

(** X15: efficiencies between 0 and 1 and counts that are not negative
    give an internal transmission between 0 and 1. *)
Theorem compute_transmission_is_a_fraction
    (ar lens mir : Qc) (a l m : nat) :
  0 ≤ ar ≤ 1 → 0 ≤ lens ≤ 1 → 0 ≤ mir ≤ 1 →
  ∃ t, Instrument._compute_transmission
         ar (Z.of_nat a) lens (Z.of_nat l) mir (Z.of_nat m) = inr t
       ∧ 0 ≤ t ≤ 1.
Proof.
  intros Har Hlens Hmir. eexists. split; [apply compute_transmission_counts|].
  auto using Qc_unit_mult, Qc_unit_power.
Qed.

(** The default efficiencies with three mirrors. *)
Lemma compute_transmission_is_a_fraction_witness :
  0 ≤ dec 99 100 ≤ 1 ∧ 0 ≤ dec 9 10 ≤ 1 ∧ 0 ≤ dec 9925 10000 ≤ 1
  ∧ ∃ t, Instrument._compute_transmission
           (dec 99 100) (Z.of_nat 2) (dec 9 10) (Z.of_nat 1)
           (dec 9925 10000) (Z.of_nat 3) = inr t
         ∧ 0 ≤ t ≤ 1.
Proof.
  assert (0 ≤ dec 99 100 ≤ 1) as H1 by (split; by_decide).
  assert (0 ≤ dec 9 10 ≤ 1) as H2 by (split; by_decide).
  assert (0 ≤ dec 9925 10000 ≤ 1) as H3 by (split; by_decide).
  split; [exact H1|]. split; [exact H2|]. split; [exact H3|].
  exact (compute_transmission_is_a_fraction
           (dec 99 100) (dec 9 10) (dec 9925 10000) 2 1 3 H1 H2 H3).
Defined.

(** ** Constructing an instrument *)

Section instrument_facts.
Context {S : Type} {ops : SpectrumOps S} {env : Env}.

Lemma Instrument_init_inst_type name inst_type kw log (ins : Instrument S) log' :
  Instrument.__init__ name inst_type kw log = (inr ins, log') →
  ins_inst_type ins
  = if bool_decide (PyStr.upper inst_type ∈ ["IMAGER"; "SPECTROGRAPH"])
    then PyStr.upper inst_type else "IMAGER".
Proof.
  unfold Instrument.__init__. cbv zeta.
  intros (t & ? & _ & Hrest)%bind_inr.
  apply bind_inr in Hrest as (fs & log1 & _ & Hrest).
  by apply bind_inr in Hrest as (c & ? & _ & [= <- <-]).
Qed.

(** Each reader call of [read_filter] is one event, whatever it returns. *)
Lemma read_filter_one_event (item : ConfigItem) (log : list io_event) :
  ∃ ev r, Instrument.read_filter item log = (r, log ++ [ev]).
Proof.
  unfold Instrument.read_filter, Instrument._read_lco_filter_csv.
  repeat case_match; unfold io, lift, mbind, M_bind;
    repeat case_match; simplify_eq/=; eauto.
Qed.

Lemma set_bandpass_events filtername log r log' :
  Instrument.set_bandpass_from_filter (S := S) filtername log = (r, log') →
  (Instrument.mapping !! Instrument.strip_p filtername = None ∧ log' = log
   ∧ r = inl (ETCError ("Filter name " +:+ Instrument.strip_p filtername
                          +:+ " is invalid.")))
  ∨ (∃ item ev, Instrument.mapping !! Instrument.strip_p filtername = Some item
                ∧ log' = log ++ [ev]).
Proof.
  destruct (Instrument.mapping !! Instrument.strip_p filtername)
    as [item|] eqn:E.
  - rewrite (set_bandpass_mapped _ _ E). unfold mbind, M_bind.
    destruct (read_filter_one_event item log) as (ev & r0 & ->).
    intros H. right. exists item, ev. split; [done|].
    destruct r0; unfold mret, M_ret in H; by simplify_eq.
  - rewrite set_bandpass_unmapped by done. intros [= <- <-]. by left.
Qed.

Lemma OrderedDict_get_None {V} (k : string) (d : list (string * V)) :
  OrderedDict.get k d = None ↔ k ∉ OrderedDict.keys d.
Proof.
  unfold OrderedDict.keys. induction d as [|[k' v] d IH]; simpl.
  - split; [|done]. intros _. apply not_elem_of_nil.
  - rewrite not_elem_of_cons. destruct (decide (k = k')) as [->|]; [|tauto].
    split; [done|]. by intros [? _].
Qed.

Lemma OrderedDict_set_new {V} (k : string) (v : V) (d : list (string * V)) :
  OrderedDict.get k d = None →
  OrderedDict.keys (OrderedDict.set k v d) = OrderedDict.keys d ++ [k].
Proof.
  unfold OrderedDict.keys. induction d as [|[k' v'] d IH]; [done|].
  intros H. simpl in H. cbn [OrderedDict.set].
  destruct (decide (k = k')); [done|].
  rewrite !fmap_cons, IH by done. done.
Qed.

Lemma for_each_filterset_reads (l : list string) acc log
    (fs : list (string * S)) log' :
  for_each l Instrument.filterset_step acc log = (inr fs, log') →
  NoDup (OrderedDict.keys acc) →
  NoDup (OrderedDict.keys fs)
  ∧ ∃ evs, log' = log ++ evs
           ∧ length fs = (length acc + length evs)%nat.
Proof.
  revert acc log. induction l as [|x l IH]; intros acc log.
  - intros [= <- <-] ?. split; [done|]. exists []. by rewrite app_nil_r.
  - change (for_each (x :: l) Instrument.filterset_step acc log)
      with ((Instrument.filterset_step acc x
             ≫= for_each l Instrument.filterset_step) log).
    intros (a' & log1 & Hstep & Hrest)%bind_inr Hnd.
    unfold Instrument.filterset_step in Hstep.
    destruct (bool_decide (is_Some (OrderedDict.get x acc))) eqn:E.
    + injection Hstep as <- <-. by apply IH.
    + apply bool_decide_eq_false in E.
      assert (OrderedDict.get x acc = None) as Hx.
      { destruct (OrderedDict.get x acc); [destruct E; eauto|done]. }
      apply bind_inr in Hstep as (c & l2 & Hc & [= <- <-]).
      apply set_bandpass_events in Hc as [(_ & _ & [=])|(item & ev & _ & ->)].
      apply IH in Hrest as (Hnd' & evs & -> & Hlen).
      * split; [done|]. exists (ev :: evs). rewrite <-app_assoc.
        split; [done|]. rewrite Hlen.
        pose proof (OrderedDict_set_new x c acc Hx) as Hk.
        apply (f_equal length) in Hk. unfold OrderedDict.keys in Hk.
        rewrite length_app, !length_fmap in Hk. simpl in *. lia.
      * rewrite OrderedDict_set_new by done. apply NoDup_app.
        split; [done|]. split; [|apply NoDup_singleton].
        intros y Hy ->%list_elem_of_singleton.
        by apply OrderedDict_get_None in Hx.
Qed.
End instrument_facts.

(** X16: the type of an instrument is always one of ['IMAGER'] and
    ['SPECTROGRAPH']: the given word is compared in upper case, and
    anything that is not ['SPECTROGRAPH'] then becomes ['IMAGER']. *)
Theorem instrument_type_is_normalised
    {S : Type} {ops : SpectrumOps S} {env : Env}
    (name : option string) (inst_type : string) (kw : Instrument.kwargs)
    (log : list io_event) (ins : Instrument S) (log' : list io_event) :
  Instrument.__init__ name inst_type kw log = (inr ins, log') →
  (ins_inst_type ins = "IMAGER" ∨ ins_inst_type ins = "SPECTROGRAPH")
  ∧ (ins_inst_type ins = "SPECTROGRAPH"
     ↔ PyStr.upper inst_type = "SPECTROGRAPH").
Proof.
  intros ->%Instrument_init_inst_type.
  destruct (decide (PyStr.upper inst_type ∈ ["IMAGER"; "SPECTROGRAPH"]))
    as [Hin|Hnin].
  - rewrite bool_decide_eq_true_2 by done.
    apply elem_of_cons in Hin as [->|Hin]; [by auto|].
    apply list_elem_of_singleton in Hin as ->. auto.
  - rewrite bool_decide_eq_false_2 by done. split; [by left|].
    split; [done|]. intros E. destruct Hnin. rewrite E. set_solver.
Qed.

(** ['Spectrograph'] in mixed case. *)
Lemma instrument_type_is_normalised_witness :
  Instrument.__init__ (env := Lab.env) None "Spectrograph"
    Instrument.no_kwargs [] = (inr Lab.spectrograph, [])
  ∧ (ins_inst_type Lab.spectrograph = "IMAGER"
     ∨ ins_inst_type Lab.spectrograph = "SPECTROGRAPH")
  ∧ (ins_inst_type Lab.spectrograph = "SPECTROGRAPH"
     ↔ PyStr.upper "Spectrograph" = "SPECTROGRAPH").
Proof.
  split; [reflexivity|].
  apply (instrument_type_is_normalised (S := Tabulated.spectrum)
           (env := Lab.env) None "Spectrograph" Instrument.no_kwargs []
           Lab.spectrograph []).
  reflexivity.
Defined.

(** X17: in a constructed instrument the filter set holds every name of
    the filter list once, duplicates of the list dropped, and every name of
    the list is, after the reduction of a trailing [p], a key of the
    catalogue: a list with an unknown name never yields an instrument. *)
Theorem filter_set_shape {S : Type} {ops : SpectrumOps S} {env : Env}
    (name : option string) (inst_type : string) (kw : Instrument.kwargs)
    (log : list io_event) (ins : Instrument S) (log' : list io_event) :
  Instrument.__init__ name inst_type kw log = (inr ins, log') →
  NoDup (OrderedDict.keys (ins_filterset ins))
  ∧ OrderedDict.keys (ins_filterset ins) ≡ₚ remove_dups (ins_filterlist ins)
  ∧ ∀ k, k ∈ ins_filterlist ins →
         is_Some (Instrument.mapping !! Instrument.strip_p k).
Proof.
  intros (_ & log1 & _ & _ & _ & _ & _ & _ & _ & _ & _ & Hfs & _)%Instrument_init_inv.
  pose proof Hfs as [Hnd _]%for_each_filterset_reads; [|constructor].
  apply init_filterset_keys in Hfs as [Hkeys Hres].
  assert (∀ k, k ∈ OrderedDict.keys (ins_filterset ins) ↔ k ∈ ins_filterlist ins)
    as Hel.
  { intros k. rewrite <-Hkeys. split.
    - intros Hk. destruct (OrderedDict.get k (ins_filterset ins)) eqn:E; [eauto|].
      by apply OrderedDict_get_None in E.
    - intros [c Hc] . destruct (decide (k ∈ OrderedDict.keys (ins_filterset ins)))
        as [|Hn]; [done|]. apply OrderedDict_get_None in Hn. congruence. }
  split; [done|]. split.
  - apply NoDup_Permutation; [done|apply NoDup_remove_dups|].
    intros k. by rewrite Hel, elem_of_remove_dups.
  - intros k [c Hc]%Hkeys. apply Hres in Hc as (l1 & l2 & Hc).
    apply set_bandpass_events in Hc as [(_ & _ & [=])|(item & _ & -> & _)].
    eauto.
Qed.

(** The imager of the small observatory, filter list [V, zp, V]. *)
Lemma filter_set_shape_witness :
  Instrument.__init__ (env := Lab.env) None "imager" Lab.imager_filters []
    = (inr Lab.imager,
       [Read_ascii_spec "etc/data/V.dat" nm THROUGHPUT;
        Read_ascii_spec "etc/data/zs.dat" nm THROUGHPUT])
  ∧ NoDup (OrderedDict.keys (ins_filterset Lab.imager))
  ∧ OrderedDict.keys (ins_filterset Lab.imager)
    ≡ₚ remove_dups (ins_filterlist Lab.imager)
  ∧ ∀ k, k ∈ ins_filterlist Lab.imager →
         is_Some (Instrument.mapping (env := Lab.env) !! Instrument.strip_p k).
Proof.
  split; [reflexivity|].
  apply (filter_set_shape (S := Tabulated.spectrum) (env := Lab.env)
           None "imager" Lab.imager_filters [] Lab.imager
           [Read_ascii_spec "etc/data/V.dat" nm THROUGHPUT;
            Read_ascii_spec "etc/data/zs.dat" nm THROUGHPUT]).
  reflexivity.
Defined.

Section instrument_reads.
Context {S : Type} {ops : SpectrumOps S} {env : Env}.

Lemma init_filterset_reads (l : list string) log (fs : list (string * S)) log' :
  Instrument.init_filterset l log = (inr fs, log') →
  ∃ evs, log' = log ++ evs ∧ length evs = length (remove_dups l).
Proof.
  intros Hfs.
  pose proof Hfs as (Hnd & evs & -> & Hlen)%for_each_filterset_reads;
    [|constructor].
  apply init_filterset_keys in Hfs as [Hkeys _].
  exists evs. split; [done|]. simpl in Hlen. rewrite <-Hlen.
  rewrite <-(length_fmap fst fs). apply Permutation_length.
  apply NoDup_Permutation; [done|apply NoDup_remove_dups|].
  intros k. rewrite elem_of_remove_dups, <-Hkeys.
  change (fst <$> fs) with (OrderedDict.keys fs). split.
  - intros Hk. destruct (OrderedDict.get k fs) eqn:E; [eauto|].
    by apply OrderedDict_get_None in E.
  - intros [c Hc]. destruct (decide (k ∈ OrderedDict.keys fs)) as [|Hn]; [done|].
    apply OrderedDict_get_None in Hn. congruence.
Qed.

Lemma init_ccd_reads (a : arg) log (r : result (ccd_t S)) log' :
  Instrument.init_ccd a log = (r, log') →
  match a with
  | AStr path =>
      log' = log ++ [Read_ascii_spec (Instrument.ccd_file path) nm THROUGHPUT]
      ∧ ∀ c, r = inr c → ∃ s, c = CcdSpectrum s
  | ANum x => log' = log ∧ r = inr (CcdNum x)
  end.
Proof.
  unfold Instrument.init_ccd, Instrument.ccd_file. destruct a as [x|path].
  - by intros [= <- <-].
  - cbv zeta. unfold io, mbind, M_bind.
    destruct (read_ascii_spec _ nm THROUGHPUT) as [e|sp].
    + intros [= <- <-]. by split.
    + destruct (Instrument.percent_to_fraction _ _).
      intros [= <- <-]. split; [done|]. intros c [= <-]. eauto.
Qed.

Lemma for_each_app {St A B} (l1 l2 : list B) (body : A → B → M St A) a s :
  for_each (l1 ++ l2) body a s = (for_each l1 body a ≫= for_each l2 body) s.
Proof.
  revert a s. induction l1 as [|x l1 IH]; intros a s; [done|].
  simpl. unfold mbind, M_bind in *.
  destruct (body a x s) as [[e|a'] s']; [done|]. apply IH.
Qed.
End instrument_reads.

(** X18: a constructed instrument has read each distinct name of its
    filter list once, however often the list repeats it, and after that
    its detector table once when the detector is a file and not at all
    when it is a number; nothing else is read. *)
Theorem constructor_reads_each_file_once
    {S : Type} {ops : SpectrumOps S} {env : Env}
    (name : option string) (inst_type : string) (kw : Instrument.kwargs)
    (log : list io_event) (ins : Instrument S) (log' : list io_event) :
  Instrument.__init__ name inst_type kw log = (inr ins, log') →
  ∃ evs, log' = log ++ evs
         ∧ length evs
           = (length (remove_dups (ins_filterlist ins))
              + match ins_ccd ins with CcdSpectrum _ => 1 | CcdNum _ => 0 end)%nat.
Proof.
  intros (_ & log1 & _ & _ & _ & _ & _ & _ & _ & _ & _ & Hfs & Hccd)%Instrument_init_inv.
  apply init_filterset_reads in Hfs as (evs & -> & Hlen).
  apply init_ccd_reads in Hccd.
  destruct (default (ANum (dec 9 10)) (Instrument.ccd kw)) as [x|path].
  - destruct Hccd as [-> [= ->]]. exists evs. split; [done|]. lia.
  - destruct Hccd as [-> Hc]. destruct (Hc _ eq_refl) as [s ->].
    eexists. rewrite <-app_assoc. split; [done|].
    rewrite length_app. simpl. lia.
Qed.

(** The imager of the small observatory: three names, two reads. *)
Lemma constructor_reads_each_file_once_witness :
  Instrument.__init__ (env := Lab.env) None "imager" Lab.imager_filters []
    = (inr Lab.imager,
       [Read_ascii_spec "etc/data/V.dat" nm THROUGHPUT;
        Read_ascii_spec "etc/data/zs.dat" nm THROUGHPUT])
  ∧ ∃ evs, [Read_ascii_spec "etc/data/V.dat" nm THROUGHPUT;
            Read_ascii_spec "etc/data/zs.dat" nm THROUGHPUT] = [] ++ evs
           ∧ length evs
             = (length (remove_dups (ins_filterlist Lab.imager))
                + match ins_ccd Lab.imager with
                  | CcdSpectrum _ => 1
                  | CcdNum _ => 0
                  end)%nat.
Proof.
  split; [reflexivity|].
  apply (constructor_reads_each_file_once (S := Tabulated.spectrum)
           (env := Lab.env) None "imager" Lab.imager_filters [] Lab.imager).
  reflexivity.
Defined.

(** X19: a name of the filter list that the catalogue does not know stops
    the constructor with [ETCError]: the names before it have been read,
    the names after it and the detector are not, and the message carries
    the name as reduced, without its trailing [p]. *)
Theorem unknown_filter_stops_constructor
    {S : Type} {ops : SpectrumOps S} {env : Env}
    (name : option string) (inst_type : string) (kw : Instrument.kwargs)
    (l1 l2 : list string) (k : string) (t : Qc)
    (fs1 : list (string * S)) (log log1 : list io_event) :
  Instrument.filterlist kw = Some (l1 ++ (k :: l2)) →
  Instrument._compute_transmission
    (default (dec 99 100) (Instrument.inst_ar_coating_refl kw))
    (default 2%Z (Instrument.num_ar_coatings kw))
    (default (dec 9 10) (Instrument.inst_lens_trans kw))
    (default 1%Z (Instrument.num_inst_lenses kw))
    (default (dec 9925 10000) (Instrument.inst_mirror_refl kw))
    (default 0%Z (Instrument.num_inst_mirrors kw)) = inr t →
  Instrument.init_filterset l1 log = (inr fs1, log1) →
  k ∉ l1 →
  Instrument.mapping !! Instrument.strip_p k = None →
  Instrument.__init__ (S := S) name inst_type kw log
  = (inl (ETCError ("Filter name " +:+ Instrument.strip_p k +:+ " is invalid.")),
     log1).
Proof.
  intros Hl Ht Hfs Hk Hmap. unfold Instrument.__init__. cbv zeta.
  unfold lift, mbind at 1, M_bind at 1. rewrite Ht, Hl. simpl.
  unfold mbind at 1, M_bind at 1. unfold Instrument.init_filterset in *.
  rewrite for_each_app. unfold mbind at 1, M_bind at 1. rewrite Hfs.
  change (for_each (k :: l2) Instrument.filterset_step fs1 log1)
    with ((Instrument.filterset_step fs1 k
           ≫= for_each l2 Instrument.filterset_step) log1).
  unfold mbind at 1, M_bind at 1. unfold Instrument.filterset_step at 1.
  apply init_filterset_keys in Hfs as [Hkeys _].
  rewrite bool_decide_eq_false_2 by (by rewrite Hkeys).
  unfold mbind at 1, M_bind at 1.
  by rewrite set_bandpass_unmapped.
Qed.

(** The filter list [V, nope, zs]: [V] is read, [zs] and the detector are
    not. *)
Lemma unknown_filter_stops_constructor_witness :
  Instrument.filterlist Lab.unknown_filter = Some (["V"] ++ ("nope" :: ["zs"]))
  ∧ Instrument._compute_transmission
      (default (dec 99 100) (Instrument.inst_ar_coating_refl Lab.unknown_filter))
      (default 2%Z (Instrument.num_ar_coatings Lab.unknown_filter))
      (default (dec 9 10) (Instrument.inst_lens_trans Lab.unknown_filter))
      (default 1%Z (Instrument.num_inst_lenses Lab.unknown_filter))
      (default (dec 9925 10000) (Instrument.inst_mirror_refl Lab.unknown_filter))
      (default 0%Z (Instrument.num_inst_mirrors Lab.unknown_filter))
    = inr (dec 99 100 ^ 2 * dec 9 10 ^ 1 * 1)
  ∧ Instrument.init_filterset (env := Lab.env) ["V"] []
    = (inr [("V", Tabulated.Table (Lab.qty (Lab.nums [500; 600]) nm)
                    (Lab.qty [dec 8 10; dec 9 10] THROUGHPUT) false)],
       [Read_ascii_spec "etc/data/V.dat" nm THROUGHPUT])
  ∧ ("nope" ∉ ["V"])
  ∧ Instrument.mapping (env := Lab.env) !! Instrument.strip_p "nope" = None
  ∧ Instrument.__init__ (S := Tabulated.spectrum) (env := Lab.env)
      None "imager" Lab.unknown_filter []
    = (inl (ETCError ("Filter name " +:+ Instrument.strip_p "nope"
                        +:+ " is invalid.")),
       [Read_ascii_spec "etc/data/V.dat" nm THROUGHPUT]).
Proof.
  assert ("nope" ∉ ["V"]) as Hk by (by intros [=]%list_elem_of_singleton).
  split; [reflexivity|]. split; [reflexivity|]. split; [reflexivity|].
  split; [exact Hk|]. split; [reflexivity|].
  exact (unknown_filter_stops_constructor (S := Tabulated.spectrum)
           (env := Lab.env) None "imager" Lab.unknown_filter
           ["V"] ["zs"] "nope" (dec 99 100 ^ 2 * dec 9 10 ^ 1 * 1) _ [] _
           eq_refl eq_refl eq_refl Hk eq_refl).
Defined.

(** ** Resolving a filter name: catalogue, metadata, vendor tables *)

Section catalogue.
Context {S : Type} {ops : SpectrumOps S} {env : Env}.

(** The keys of the catalogue. *)
Lemma mapping_None (k : string) :
  Instrument.mapping !! k = None
  ↔ k ∉ ["u"; "g"; "r"; "i"; "z"; "zs"; "C2"; "C3"; "OH"; "CN"; "NH2"; "CR";
         "U"; "B"; "V"; "R"; "I";
         "WHT_U"; "WHT_B"; "WHT_V"; "WHT_R"; "WHT_I"].
Proof. unfold Instrument.mapping. by rewrite <-not_elem_of_list_to_map. Qed.
End catalogue.

(** X20: the names that resolve are the twenty-two keys of the catalogue,
    and a one-letter key followed by [p]: resolving such a name calls one
    reader, once, whether the reader succeeds or not; any other name raises
    [ETCError] without a read. *)
Theorem resolution_reads_once_or_never
    {S : Type} {ops : SpectrumOps S} {env : Env}
    (filtername : string) (log : list io_event) :
  let names :=
    ["u"; "g"; "r"; "i"; "z"; "zs"; "C2"; "C3"; "OH"; "CN"; "NH2"; "CR";
     "U"; "B"; "V"; "R"; "I";
     "WHT_U"; "WHT_B"; "WHT_V"; "WHT_R"; "WHT_I"] in
  (Instrument.strip_p filtername ∈ names
   ∧ ∃ ev r, Instrument.set_bandpass_from_filter (S := S) filtername log
             = (r, log ++ [ev]))
  ∨ ((Instrument.strip_p filtername ∉ names)
     ∧ Instrument.set_bandpass_from_filter (S := S) filtername log
       = (inl (ETCError ("Filter name " +:+ Instrument.strip_p filtername
                           +:+ " is invalid.")), log)).
Proof.
  intros names.
  destruct (Instrument.mapping !! Instrument.strip_p filtername)
    as [item|] eqn:E.
  - left. split.
    + destruct (decide (Instrument.strip_p filtername ∈ names)) as [|Hn]; [done|].
      apply mapping_None in Hn. congruence.
    + destruct (Instrument.set_bandpass_from_filter (S := S) filtername log)
        as [r log'] eqn:Hset.
      apply set_bandpass_events in Hset
        as [(? & _)|(item' & ev & _ & ->)]; [congruence|]. eauto.
  - right. split; [by apply mapping_None|]. by apply set_bandpass_unmapped.
Qed.

(** X21: the spectrum of a resolved name carries its provenance: in the
    header that the reader returned, the entry [filename] is set to the
    configuration item and [descrip] to its description (whatever the
    reader had put there), every other entry is kept, and [expr] is the
    name as reduced. *)
Theorem resolved_filter_provenance
    {S : Type} {ops : SpectrumOps S} {env : Env}
    (filtername : string) (log : list io_event) (c : S) (log' : list io_event) :
  Instrument.set_bandpass_from_filter filtername log = (inr c, log') →
  ∃ (item : ConfigItem) (r : Spec) (meta : Meta),
    Instrument.mapping !! Instrument.strip_p filtername = Some item
    ∧ Instrument.read_filter item log = (inr r, log')
    ∧ c = Empirical1D SpectralElement (s_wavelengths r) (s_throughput r)
            None meta
    ∧ expr meta = Some (Instrument.strip_p filtername)
    ∧ header meta !! "filename" = Some (HItem item)
    ∧ header meta !! "descrip" = Some (HStr (description item))
    ∧ ∀ k, k ≠ "filename" → k ≠ "descrip" →
           header meta !! k = s_header r !! k.
Proof.
  intros Hset.
  destruct (Instrument.mapping !! Instrument.strip_p filtername)
    as [item|] eqn:E; [|by rewrite set_bandpass_unmapped in Hset].
  rewrite (set_bandpass_mapped _ _ E) in Hset.
  apply bind_inr in Hset as (r & l1 & Hr & [= <- <-]).
  exists item, r. eexists. split; [done|]. split; [done|].
  split; [reflexivity|]. simpl. split; [done|].
  split; [by rewrite lookup_insert_ne, lookup_insert_eq|].
  split; [by rewrite lookup_insert_eq|].
  intros k ??. by rewrite !lookup_insert_ne.
Qed.

(** The name [zp] in the small observatory. *)
Lemma resolved_filter_provenance_witness :
  Instrument.set_bandpass_from_filter (env := Lab.env) "zp" []
    = (inr Lab.zs_band, [Read_ascii_spec "etc/data/zs.dat" nm THROUGHPUT])
  ∧ ∃ (item : ConfigItem) (r : Spec) (meta : Meta),
      Instrument.mapping (env := Lab.env) !! Instrument.strip_p "zp" = Some item
      ∧ Instrument.read_filter (env := Lab.env) item []
        = (inr r, [Read_ascii_spec "etc/data/zs.dat" nm THROUGHPUT])
      ∧ Lab.zs_band
        = Empirical1D SpectralElement (s_wavelengths r) (s_throughput r)
            None meta
      ∧ expr meta = Some (Instrument.strip_p "zp")
      ∧ header meta !! "filename" = Some (HItem item)
      ∧ header meta !! "descrip" = Some (HStr (description item))
      ∧ ∀ k, k ≠ "filename" → k ≠ "descrip" →
             header meta !! k = s_header r !! k.
Proof.
  split; [reflexivity|].
  apply (resolved_filter_provenance (S := Tabulated.spectrum) (env := Lab.env)
           "zp" [] Lab.zs_band).
  reflexivity.
Defined.

Section vendor_table.

Lemma getitem_error name t e : Instrument.getitem name t = inl e → e = KeyError name.
Proof.
  induction t as [|[k c] t IH]; simpl; [by intros [= <-]|].
  by destruct (decide (k = name)).
Qed.

Lemma rename_column_missing old new t e :
  Instrument.getitem old t = inl e →
  Instrument.rename_column old new t = inl (KeyError old).
Proof. intros H. unfold Instrument.rename_column. by rewrite H. Qed.

Lemma rename_column_exists old new t c c' :
  old ≠ new →
  Instrument.getitem old t = inr c →
  Instrument.getitem new t = inr c' →
  Instrument.rename_column old new t = inl (KeyError new).
Proof.
  intros Hne Hold Hnew. unfold Instrument.rename_column.
  by rewrite Hold, decide_False, Hnew.
Qed.

Lemma rename_first_found old new t c :
  Instrument.getitem old t = inr c →
  Instrument.getitem new t = inl (KeyError new) →
  Instrument.getitem new (Instrument.rename_first old new t) = inr c
  ∧ ∀ k, k ≠ old → k ≠ new →
         Instrument.getitem k (Instrument.rename_first old new t)
         = Instrument.getitem k t.
Proof.
  induction t as [|[k0 c0] t IH]; simpl; [done|].
  destruct (decide (k0 = old)) as [->|Hne].
  - intros [= ->] _. simpl. rewrite decide_True by done. split; [done|].
    intros k ??. by rewrite !decide_False.
  - destruct (decide (k0 = new)) as [->|Hne']; [done|].
    intros Hold Hnew. destruct (IH Hold Hnew) as [Hg Hother].
    simpl. rewrite decide_False by done.
    split; [done|]. intros k ??. destruct (decide (k0 = k)); [done|].
    by apply Hother.
Qed.

(** Renaming a column that is there, to a name that is not: the column is
    found under its new name and every other name finds what it found. *)
Lemma rename_column_found old new t c :
  Instrument.getitem old t = inr c →
  Instrument.getitem new t = inl (KeyError new) →
  ∃ t', Instrument.rename_column old new t = inr t'
        ∧ Instrument.getitem new t' = inr c
        ∧ ∀ k, k ≠ old → k ≠ new →
               Instrument.getitem k t' = Instrument.getitem k t.
Proof.
  intros Hold Hnew. unfold Instrument.rename_column. rewrite Hold.
  destruct (decide (old = new)) as [->|Hne]; [congruence|].
  rewrite Hnew. eexists. split; [done|]. by apply rename_first_found.
Qed.

Lemma set_unit_found name u t c :
  Instrument.getitem name t = inr c →
  ∃ t', Instrument.set_unit name u t = inr t'
        ∧ Instrument.getitem name t' = inr (mkColumn (col_data c) (Some u))
        ∧ ∀ k, k ≠ name → Instrument.getitem k t' = Instrument.getitem k t.
Proof.
  induction t as [|[k0 c0] t IH]; simpl; [done|].
  destruct (decide (k0 = name)) as [->|Hne].
  - intros [= ->]. eexists. split; [done|]. simpl.
    rewrite decide_True by done. split; [done|].
    intros k ?. by rewrite !decide_False.
  - intros Hc. destruct (IH Hc) as (t' & -> & Hg & Hother).
    eexists. split; [done|]. simpl. rewrite decide_False by done.
    split; [done|]. intros k ?. destruct (decide (k0 = k)); [done|].
    by apply Hother.
Qed.
End vendor_table.

(** X22: of a vendor table that has the three vendor columns and no
    column already called [Wavelength], [Trans_measured] or
    [Trans_filtered] (a renaming onto a column that exists is refused) the
    reader returns the data of [ILDIALCT] as wavelengths in nm, the data of
    [ilab_v1] as dimensionless values, and an empty header; the file is
    read once, in the format [ascii.csv] with the data from row 64 on. *)
Theorem read_lco_filter_csv_columns {env : Env}
    (path : string) (log : list io_event) (t : QTable) (cw ct cf : Column) :
  QTable_read path "ascii.csv" 0%nat 64%nat = inr t →
  Instrument.getitem "ILDIALCT" t = inr cw →
  Instrument.getitem "ilab_v1" t = inr ct →
  Instrument.getitem "FITS/CSV file dialect" t = inr cf →
  Instrument.getitem "Wavelength" t = inl (KeyError "Wavelength") →
  Instrument.getitem "Trans_measured" t = inl (KeyError "Trans_measured") →
  Instrument.getitem "Trans_filtered" t = inl (KeyError "Trans_filtered") →
  Instrument._read_lco_filter_csv path log
  = (inr (mkSpec ∅ (mkQuantity (col_data cw) (Some nm))
                   (mkQuantity (col_data ct) (Some dimensionless_unscaled))),
     log ++ [Read_QTable path "ascii.csv" 0 64]).
Proof.
  intros Hread Hw Ht Hf Hnw Hnt Hnf.
  unfold Instrument._read_lco_filter_csv, io, lift, mbind at 1, M_bind.
  rewrite Hread. f_equal.
  destruct (rename_column_found "ILDIALCT" "Wavelength" t cw Hw Hnw)
    as (t1 & -> & Hw1 & H1).
  destruct (set_unit_found "Wavelength" nm t1 cw Hw1) as (t2 & E2 & Hw2 & H2).
  assert (Instrument.getitem "ilab_v1" t2 = inr ct) as Ht2
    by (by rewrite H2, H1).
  assert (Instrument.getitem "Trans_measured" t2 = inl (KeyError "Trans_measured"))
    as Hnt2 by (by rewrite H2, H1).
  destruct (rename_column_found "ilab_v1" "Trans_measured" t2 ct Ht2 Hnt2)
    as (t3 & E3 & Ht3 & H3).
  destruct (set_unit_found "Trans_measured" dimensionless_unscaled t3 ct Ht3)
    as (t4 & E4 & Ht4 & H4).
  assert (Instrument.getitem "FITS/CSV file dialect" t4 = inr cf) as Hf4
    by (by rewrite H4, H3, H2, H1).
  assert (Instrument.getitem "Trans_filtered" t4 = inl (KeyError "Trans_filtered"))
    as Hnf4 by (by rewrite H4, H3, H2, H1).
  destruct (rename_column_found "FITS/CSV file dialect" "Trans_filtered" t4 cf
              Hf4 Hnf4) as (t5 & E5 & _ & H5).
  unfold mbind, result_bind. rewrite E2, E3, E4, E5.
  rewrite (H5 "Wavelength"), (H4 "Wavelength"), (H3 "Wavelength"), Hw2 by done.
  by rewrite (H5 "Trans_measured"), Ht4 by done.
Qed.

(** The vendor table of the small observatory. *)
Lemma read_lco_filter_csv_columns_witness :
  QTable_read (Env := Lab.env) "etc/data/LCO_gp.csv" "ascii.csv" 0%nat 64%nat
    = inr Lab.csv
  ∧ Instrument.getitem "ILDIALCT" Lab.csv
    = inr (mkColumn (Lab.nums [400; 550]) None)
  ∧ Instrument.getitem "ilab_v1" Lab.csv
    = inr (mkColumn [dec 8 10; dec 9 10] None)
  ∧ Instrument.getitem "FITS/CSV file dialect" Lab.csv
    = inr (mkColumn [dec 8 10; dec 9 10] None)
  ∧ Instrument.getitem "Wavelength" Lab.csv = inl (KeyError "Wavelength")
  ∧ Instrument.getitem "Trans_measured" Lab.csv
    = inl (KeyError "Trans_measured")
  ∧ Instrument.getitem "Trans_filtered" Lab.csv
    = inl (KeyError "Trans_filtered")
  ∧ Instrument._read_lco_filter_csv (env := Lab.env) "etc/data/LCO_gp.csv" []
    = (inr (mkSpec ∅ (mkQuantity (Lab.nums [400; 550]) (Some nm))
                     (mkQuantity [dec 8 10; dec 9 10]
                        (Some dimensionless_unscaled))),
       [] ++ [Read_QTable "etc/data/LCO_gp.csv" "ascii.csv" 0 64]).
Proof.
  repeat (split; [reflexivity|]).
  exact (read_lco_filter_csv_columns (env := Lab.env) "etc/data/LCO_gp.csv" []
           Lab.csv _ _ _ eq_refl eq_refl eq_refl eq_refl eq_refl eq_refl
           eq_refl).
Defined.

(** X23: the third vendor column, [FITS/CSV file dialect], is renamed but
    never read, and yet it must be there: a table with the two data
    columns and without it makes the reader raise [KeyError] for it. *)
Theorem read_lco_filter_csv_needs_third_column {env : Env}
    (path : string) (log : list io_event) (t : QTable) (cw ct : Column) (e : exn) :
  QTable_read path "ascii.csv" 0%nat 64%nat = inr t →
  Instrument.getitem "ILDIALCT" t = inr cw →
  Instrument.getitem "ilab_v1" t = inr ct →
  Instrument.getitem "FITS/CSV file dialect" t = inl e →
  Instrument.getitem "Wavelength" t = inl (KeyError "Wavelength") →
  Instrument.getitem "Trans_measured" t = inl (KeyError "Trans_measured") →
  Instrument._read_lco_filter_csv path log
  = (inl (KeyError "FITS/CSV file dialect"),
     log ++ [Read_QTable path "ascii.csv" 0 64]).
Proof.
  intros Hread Hw Ht Hf Hnw Hnt.
  unfold Instrument._read_lco_filter_csv, io, lift, mbind at 1, M_bind.
  rewrite Hread. f_equal.
  destruct (rename_column_found "ILDIALCT" "Wavelength" t cw Hw Hnw)
    as (t1 & -> & Hw1 & H1).
  destruct (set_unit_found "Wavelength" nm t1 cw Hw1) as (t2 & E2 & Hw2 & H2).
  assert (Instrument.getitem "ilab_v1" t2 = inr ct) as Ht2
    by (by rewrite H2, H1).
  assert (Instrument.getitem "Trans_measured" t2 = inl (KeyError "Trans_measured"))
    as Hnt2 by (by rewrite H2, H1).
  destruct (rename_column_found "ilab_v1" "Trans_measured" t2 ct Ht2 Hnt2)
    as (t3 & E3 & Ht3 & H3).
  destruct (set_unit_found "Trans_measured" dimensionless_unscaled t3 ct Ht3)
    as (t4 & E4 & Ht4 & H4).
  assert (Instrument.getitem "FITS/CSV file dialect" t4 = inl e) as Hf4
    by (by rewrite H4, H3, H2, H1).
  unfold mbind, result_bind. rewrite E2, E3, E4.
  by rewrite (rename_column_missing _ "Trans_filtered" _ _ Hf4).
Qed.

(** A table with the two data columns only. *)
Lemma read_lco_filter_csv_needs_third_column_witness :
  QTable_read (Env := Lab.env_two_columns) "g.csv" "ascii.csv" 0%nat 64%nat
    = inr Lab.csv_two_columns
  ∧ Instrument.getitem "ILDIALCT" Lab.csv_two_columns
    = inr (mkColumn (Lab.nums [400; 550]) None)
  ∧ Instrument.getitem "ilab_v1" Lab.csv_two_columns
    = inr (mkColumn [dec 8 10; dec 9 10] None)
  ∧ Instrument.getitem "FITS/CSV file dialect" Lab.csv_two_columns
    = inl (KeyError "FITS/CSV file dialect")
  ∧ Instrument.getitem "Wavelength" Lab.csv_two_columns
    = inl (KeyError "Wavelength")
  ∧ Instrument.getitem "Trans_measured" Lab.csv_two_columns
    = inl (KeyError "Trans_measured")
  ∧ Instrument._read_lco_filter_csv (env := Lab.env_two_columns) "g.csv" []
    = (inl (KeyError "FITS/CSV file dialect"),
       [] ++ [Read_QTable "g.csv" "ascii.csv" 0 64]).
Proof.
  repeat (split; [reflexivity|]).
  exact (read_lco_filter_csv_needs_third_column (env := Lab.env_two_columns)
           "g.csv" [] Lab.csv_two_columns _ _ _
           eq_refl eq_refl eq_refl eq_refl eq_refl eq_refl).
Defined.

(** ** Components as operands *)

(** X24: [site * x] takes the reflectivity of a telescope [x] and the
    internal transmission of an instrument [x] as the factor, and stores
    the product in the site; another site (or the site itself) as [x] is
    handed to the spectrum as it is and refused, the store unchanged. *)
Theorem Site_times_component {S : Type} {ops : SpectrumOps S}
    (l l' : loc) (s : Site S) (T : S) (o' : obj S) (h : gmap loc (obj S)) :
  h !! l = Some (OSite s) → site_transmission s = Some T →
  h !! l' = Some o' →
  py_mul (VRef l) (VRef l') h
  = match o' with
    | OTelescope t =>
        (inr (VRef l),
         <[l := OSite (mkSite (site_name s) (site_altitude s) (site_latitude s)
                         (site_longitude s)
                         (Some (spectrum_mul T (tel_reflectivity t))))]> h)
    | OInstrument i =>
        (inr (VRef l),
         <[l := OSite (mkSite (site_name s) (site_altitude s) (site_latitude s)
                         (site_longitude s)
                         (Some (spectrum_mul T (ins_transmission i))))]> h)
    | OSite _ => (inl IncompatibleSources, h)
    end.
Proof.
  intros Hl HT Hl'. destruct o'; run_store; done.
Qed.

(** The site and the default instrument of the small observatory. *)
Lemma Site_times_component_witness :
  Lab.observatory !! Lab.site_ref = Some (OSite Lab.site)
  ∧ site_transmission Lab.site = Some Lab.sky_09
  ∧ Lab.observatory !! Lab.instrument_ref
    = Some (OInstrument Lab.default_instrument)
  ∧ py_mul (VRef Lab.site_ref) (VRef Lab.instrument_ref) Lab.observatory
    = (inr (VRef Lab.site_ref),
       <[Lab.site_ref :=
           OSite (mkSite (site_name Lab.site) (site_altitude Lab.site)
                    (site_latitude Lab.site) (site_longitude Lab.site)
                    (Some (spectrum_mul Lab.sky_09
                             (ins_transmission Lab.default_instrument))))]>
         Lab.observatory).
Proof.
  split; [reflexivity|]. split; [reflexivity|]. split; [reflexivity|].
  exact (Site_times_component Lab.site_ref Lab.instrument_ref Lab.site
           Lab.sky_09 (OInstrument Lab.default_instrument) Lab.observatory
           eq_refl eq_refl eq_refl).
Defined.

(** X25: a telescope unwraps nothing: with a site, an instrument, another
    telescope or itself on its right, [telescope * x] and [telescope / x]
    raise the error of the spectrum library and change nothing; with a
    number or a spectrum they store the product or quotient in the
    telescope, except that the number zero as divisor raises
    [ZeroDivisionError] and leaves the telescope as it was. *)
Theorem Telescope_refuses_components {S : Type} {ops : SpectrumOps S}
    (l : loc) (t : Telescope S) (b : value S) (h : gmap loc (obj S)) :
  h !! l = Some (OTelescope t) →
  match b with
  | VRef _ =>
      py_mul (VRef l) b h = (inl IncompatibleSources, h)
      ∧ py_truediv (VRef l) b h = (inl IncompatibleSources, h)
  | VNum k =>
      py_mul (VRef l) b h
      = (inr (VRef l),
         <[l := OTelescope (mkTelescope (tel_name t) (tel_size t) (tel_area t)
                              (tel_num_mirrors t)
                              (spectrum_scale (tel_reflectivity t) k))]> h)
      ∧ (k = 0 → py_truediv (VRef l) b h = (inl ZeroDivisionError, h))
      ∧ (k ≠ 0 →
         py_truediv (VRef l) b h
         = (inr (VRef l),
            <[l := OTelescope (mkTelescope (tel_name t) (tel_size t)
                                 (tel_area t) (tel_num_mirrors t)
                                 (spectrum_unscale (tel_reflectivity t) k))]> h))
  | VSpectrum c =>
      py_mul (VRef l) b h
      = (inr (VRef l),
         <[l := OTelescope (mkTelescope (tel_name t) (tel_size t) (tel_area t)
                              (tel_num_mirrors t)
                              (spectrum_mul (tel_reflectivity t) c))]> h)
      ∧ py_truediv (VRef l) b h
        = (inr (VRef l),
           <[l := OTelescope (mkTelescope (tel_name t) (tel_size t) (tel_area t)
                                (tel_num_mirrors t)
                                (spectrum_div (tel_reflectivity t) c))]> h)
  end.
Proof.
  intros Hl. destruct b as [k|c|l'].
  - split; [run_store; done|].
    rewrite (Telescope_truediv_number h l t k Hl).
    split; intros Hk; [by rewrite decide_True|by rewrite decide_False].
  - split; run_store; done.
  - split; run_store; done.
Qed.

(** The telescope of the small observatory times itself, and divided by
    zero and by two. *)
Lemma Telescope_refuses_components_witness :
  Lab.store !! Lab.telescope_ref = Some (OTelescope Lab.telescope)
  ∧ (py_mul (VRef Lab.telescope_ref) (VRef Lab.telescope_ref) Lab.store
     = (inl IncompatibleSources, Lab.store)
     ∧ py_truediv (VRef Lab.telescope_ref) (VRef Lab.telescope_ref) Lab.store
       = (inl IncompatibleSources, Lab.store))
  ∧ py_truediv (VRef Lab.telescope_ref) (VNum 0) Lab.store
    = (inl ZeroDivisionError, Lab.store)
  ∧ py_truediv (VRef Lab.telescope_ref) (VNum (Qc_of_Z 2)) Lab.store
    = (inr (VRef Lab.telescope_ref),
       <[Lab.telescope_ref :=
           OTelescope (mkTelescope (tel_name Lab.telescope)
                         (tel_size Lab.telescope) (tel_area Lab.telescope)
                         (tel_num_mirrors Lab.telescope)
                         (spectrum_unscale (tel_reflectivity Lab.telescope)
                            (Qc_of_Z 2)))]> Lab.store).
Proof.
  split; [reflexivity|]. split.
  - exact (Telescope_refuses_components Lab.telescope_ref Lab.telescope
             (VRef Lab.telescope_ref) Lab.store eq_refl).
  - split.
    + exact (proj1 (proj2 (Telescope_refuses_components Lab.telescope_ref
                             Lab.telescope (VNum 0) Lab.store eq_refl))
               eq_refl).
    + apply (proj2 (proj2 (Telescope_refuses_components Lab.telescope_ref
                             Lab.telescope (VNum (Qc_of_Z 2)) Lab.store
                             eq_refl))).
      by_decide.
Defined.
